(** * ChibiOS STM32 DMAv1_MUX helper driver and CFE PSP hooks

    A shallow embedding of

      - os/hal/ports/STM32/LLD/DMAv1_MUX/stm32_dma.h
        (the register-level macros and the shared-IRQ dispatcher), and
      - os/common/abstractions/nasa_osal/lib/cfe_psp_chibios.c
        (the panic and restart hooks),

    followed by the properties of the driver specification, each one proved
    or refuted on the embedded code.

    Conventions.  A C [uint32_t] is a [Z] whose wrap-around is written out
    with [u32]; the bit operators of C are [Z.land], [Z.lor], [Z.lnot],
    [Z.shiftl] and [Z.shiftr].  Pointers to memory-mapped peripherals are
    indices into the register file of the machine.  Every volatile access and
    every callback invocation is appended to the machine's [trace], so the
    order of register accesses can be stated. *)

From Stdlib Require Import ZArith List Bool Lia.
Import ListNotations.
Open Scope Z_scope.

(* ===================================================================== *)
(** ** 32-bit words *)
(* ===================================================================== *)

(** Conversion to [uint32_t]: reduction modulo 2^32. *)
Definition u32 (z : Z) : Z := z mod 2 ^ 32.

(** The values a [uint32_t] can hold. *)
Definition is_u32 (z : Z) : Prop := 0 <= z < 2 ^ 32.

(* ===================================================================== *)
(** ** The CMSIS device header *)
(* ===================================================================== *)

(** Modelled from the spec: the [DMA_CCR_*] and [DMA_ISR_*] bit constants
    come from the CMSIS device header, which is not part of the driver
    sources.  They are kept abstract: the driver is verified for every
    header whose constants are [uint32_t] literals.  The spec (§6) names the
    roles: one enable bit, three interrupt-enable bits, direction and
    increment flags in the control register; transfer-complete,
    half-transfer and transfer-error flags in the status register. *)
Class device_header : Type := {
  DMA_CCR_EN      : Z;
  DMA_CCR_TCIE    : Z;
  DMA_CCR_HTIE    : Z;
  DMA_CCR_TEIE    : Z;
  DMA_CCR_DIR     : Z;
  DMA_CCR_CIRC    : Z;
  DMA_CCR_PINC    : Z;
  DMA_CCR_MINC    : Z;
  DMA_CCR_MEM2MEM : Z;
  DMA_ISR_TCIF1   : Z;
  DMA_ISR_HTIF1   : Z;
  DMA_ISR_TEIF1   : Z;
  DMA_CCR_EN_u32      : is_u32 DMA_CCR_EN;
  DMA_CCR_PINC_u32    : is_u32 DMA_CCR_PINC;
  DMA_CCR_MINC_u32    : is_u32 DMA_CCR_MINC;
  DMA_CCR_MEM2MEM_u32 : is_u32 DMA_CCR_MEM2MEM
}.

(* ===================================================================== *)
(** ** Data structures *)
(* ===================================================================== *)

(** [DMA_TypeDef]: the registers shared by the streams of one controller.
    [IFCR] is write-only and holds no value of its own. *)
Record DMA_TypeDef : Type := mkDMA {
  ISR : Z
}.

(** [DMA_Channel_TypeDef]: the registers of one channel. *)
Record DMA_Channel_TypeDef : Type := mkChannel {
  CCR   : Z;
  CNDTR : Z;
  CPAR  : Z;
  CMAR  : Z
}.

(** [stm32_dma_stream_t]: the stream descriptor.  [dma], [channel] and [mux]
    are the indices of the register blocks the C pointers designate. *)
Record stm32_dma_stream_t : Type := mkStream {
  dma       : nat;
  channel   : nat;
  cmask     : Z;
  mux       : nat;
  shift     : Z;
  selfindex : nat;
  vector    : Z
}.

(** One entry of [_stm32_dma_isr_redir]: a function pointer (0 is [NULL])
    and its opaque parameter. *)
Record dma_isr_redir_t : Type := mkRedir {
  dma_func  : Z;
  dma_param : Z
}.

(** Addresses of the memory-mapped registers. *)
Inductive reg : Type :=
| DMA_ISR   (d : nat)
| DMA_IFCR  (d : nat)
| CH_CCR    (c : nat)
| CH_CNDTR  (c : nat)
| CH_CPAR   (c : nat)
| CH_CMAR   (c : nat).

(** What the processor does that is visible from outside the macro: volatile
    reads and writes, and calls through a registered function pointer. *)
Inductive event : Type :=
| Load     (r : reg) (v : Z)
| Store    (r : reg) (v : Z)
| Callback (func param flags : Z).

(** The machine: register file, redirection table and the access trace
    (oldest access first). *)
Record machine : Type := mkMachine {
  units                : nat -> DMA_TypeDef;
  channels             : nat -> DMA_Channel_TypeDef;
  _stm32_dma_isr_redir : list dma_isr_redir_t;
  trace                : list event
}.

(** Point-wise update of a register bank. *)
Definition upd {A : Type} (f : nat -> A) (k : nat) (v : A) : nat -> A :=
  fun j => if Nat.eqb j k then v else f j.

(* ===================================================================== *)
(** ** The access monad *)
(* ===================================================================== *)

(** Why a computation did not produce a machine. *)
Inductive fault : Type :=
| OutOfBounds   (* index past the end of the redirection table *)
| OutOfFuel.    (* a polling loop was cut before it finished *)

Inductive result (A : Type) : Type :=
| Done  (a : A) (m : machine)
| Stuck (f : fault).
Arguments Done {A} a m.
Arguments Stuck {A} f.

Definition io (A : Type) : Type := machine -> result A.

Definition ret {A : Type} (a : A) : io A := fun m => Done a m.

Definition bind {A B : Type} (c : io A) (k : A -> io B) : io B :=
  fun m => match c m with
           | Done a m1 => k a m1
           | Stuck f => Stuck f
           end.

Definition fail {A : Type} (f : fault) : io A := fun _ => Stuck f.

Declare Scope io_scope.
Delimit Scope io_scope with io.
Notation "x <- c ;; k" := (bind c (fun x => k))
  (at level 61, c at next level, right associativity) : io_scope.
Notation "c ;; k" := (bind c (fun _ => k))
  (at level 61, right associativity) : io_scope.
Open Scope io_scope.

Definition log (e : event) (m : machine) : machine :=
  mkMachine (units m) (channels m) (_stm32_dma_isr_redir m) (trace m ++ [e]).

(** The value a register currently holds.  [IFCR] reads as zero. *)
Definition peek (r : reg) (m : machine) : Z :=
  match r with
  | DMA_ISR d  => ISR (units m d)
  | DMA_IFCR _ => 0
  | CH_CCR c   => CCR (channels m c)
  | CH_CNDTR c => CNDTR (channels m c)
  | CH_CPAR c  => CPAR (channels m c)
  | CH_CMAR c  => CMAR (channels m c)
  end.

(** Modelled from the spec: the effect of a register write on the hardware
    is not in the driver sources.  The clear-flags register "mirrors the
    status bit layout" (§6) and a one written to it acknowledges, that is
    clears, the status bit at the same position; the status register is
    read-only; the channel registers hold what was written. *)
Definition poke (r : reg) (v : Z) (m : machine) : machine :=
  match r with
  | DMA_ISR _ => m
  | DMA_IFCR d =>
      mkMachine (upd (units m) d (mkDMA (Z.ldiff (ISR (units m d)) v)))
                (channels m) (_stm32_dma_isr_redir m) (trace m)
  | CH_CCR c =>
      let ch := channels m c in
      mkMachine (units m)
                (upd (channels m) c (mkChannel v (CNDTR ch) (CPAR ch) (CMAR ch)))
                (_stm32_dma_isr_redir m) (trace m)
  | CH_CNDTR c =>
      let ch := channels m c in
      mkMachine (units m)
                (upd (channels m) c (mkChannel (CCR ch) v (CPAR ch) (CMAR ch)))
                (_stm32_dma_isr_redir m) (trace m)
  | CH_CPAR c =>
      let ch := channels m c in
      mkMachine (units m)
                (upd (channels m) c (mkChannel (CCR ch) (CNDTR ch) v (CMAR ch)))
                (_stm32_dma_isr_redir m) (trace m)
  | CH_CMAR c =>
      let ch := channels m c in
      mkMachine (units m)
                (upd (channels m) c (mkChannel (CCR ch) (CNDTR ch) (CPAR ch) v))
                (_stm32_dma_isr_redir m) (trace m)
  end.

(** Volatile read. *)
Definition load (r : reg) : io Z :=
  fun m => Done (peek r m) (log (Load r (peek r m)) m).

(** Volatile write. *)
Definition store (r : reg) (v : Z) : io unit :=
  fun m => Done tt (log (Store r v) (poke r v m)).

(** Call through a function pointer.  The callee is client code; the model
    records the call and its arguments. *)
Definition call (func param flags : Z) : io unit :=
  fun m => Done tt (log (Callback func param flags) m).

(** [_stm32_dma_isr_redir[idx]]. *)
Definition redir_at (idx : nat) : io dma_isr_redir_t :=
  fun m => match nth_error (_stm32_dma_isr_redir m) idx with
           | Some e => Done e m
           | None => Stuck OutOfBounds
           end.

(* ===================================================================== *)
(** ** stm32_dma.h *)
(* ===================================================================== *)

Definition STM32_DMA_ISR_MASK : Z := 0x0E.

Definition STM32_DMA_ISR_SHIFT (stream : Z) : Z := u32 (u32 (stream - 1) * 4).

(** [(((prio) >= 0U) && ((prio) <= 3U))]: both comparisons are unsigned. *)
Definition STM32_DMA_IS_VALID_PRIORITY (prio : Z) : bool :=
  (u32 prio >=? 0) && (u32 prio <=? 3).

Section Driver.

Context {hdr : device_header}.

Definition STM32_DMA_CR_EN      : Z := DMA_CCR_EN.
Definition STM32_DMA_CR_TEIE    : Z := DMA_CCR_TEIE.
Definition STM32_DMA_CR_HTIE    : Z := DMA_CCR_HTIE.
Definition STM32_DMA_CR_TCIE    : Z := DMA_CCR_TCIE.
Definition STM32_DMA_CR_DIR_M2M : Z := DMA_CCR_MEM2MEM.
Definition STM32_DMA_CR_PINC    : Z := DMA_CCR_PINC.
Definition STM32_DMA_CR_MINC    : Z := DMA_CCR_MINC.
Definition STM32_DMA_ISR_TEIF   : Z := DMA_ISR_TEIF1.
Definition STM32_DMA_ISR_HTIF   : Z := DMA_ISR_HTIF1.
Definition STM32_DMA_ISR_TCIF   : Z := DMA_ISR_TCIF1.

Definition dmaStreamSetPeripheral (dmastp : stm32_dma_stream_t) (addr : Z)
  : io unit :=
  store (CH_CPAR (channel dmastp)) (u32 addr).

Definition dmaStreamSetMemory0 (dmastp : stm32_dma_stream_t) (addr : Z)
  : io unit :=
  store (CH_CMAR (channel dmastp)) (u32 addr).

Definition dmaStreamSetTransactionSize (dmastp : stm32_dma_stream_t) (size : Z)
  : io unit :=
  store (CH_CNDTR (channel dmastp)) (u32 size).

Definition dmaStreamGetTransactionSize (dmastp : stm32_dma_stream_t) : io Z :=
  load (CH_CNDTR (channel dmastp)).

Definition dmaStreamSetMode (dmastp : stm32_dma_stream_t) (mode : Z)
  : io unit :=
  store (CH_CCR (channel dmastp)) (u32 mode).

Definition dmaStreamEnable (dmastp : stm32_dma_stream_t) : io unit :=
  ccr <- load (CH_CCR (channel dmastp)) ;;
  store (CH_CCR (channel dmastp)) (Z.lor ccr STM32_DMA_CR_EN).

(** [(dmastp)->dma->IFCR = STM32_DMA_ISR_MASK << (dmastp)->shift;]
    The register takes the low 32 bits of the shifted mask. *)
Definition dmaStreamClearInterrupt (dmastp : stm32_dma_stream_t) : io unit :=
  store (DMA_IFCR (dma dmastp))
        (u32 (Z.shiftl STM32_DMA_ISR_MASK (shift dmastp))).

(** [CCR &= ~(TCIE | HTIE | TEIE | EN)] is one read and one write of the
    control register; the complement is taken on 32 bits. *)
Definition dmaStreamDisable (dmastp : stm32_dma_stream_t) : io unit :=
  ccr <- load (CH_CCR (channel dmastp)) ;;
  store (CH_CCR (channel dmastp))
        (Z.land ccr
           (u32 (Z.lnot (Z.lor (Z.lor (Z.lor STM32_DMA_CR_TCIE
                                             STM32_DMA_CR_HTIE)
                                      STM32_DMA_CR_TEIE)
                               STM32_DMA_CR_EN)))) ;;
  dmaStreamClearInterrupt dmastp.

Definition dmaStartMemCopy (dmastp : stm32_dma_stream_t) (mode src dst n : Z)
  : io unit :=
  dmaStreamSetPeripheral dmastp src ;;
  dmaStreamSetMemory0 dmastp dst ;;
  dmaStreamSetTransactionSize dmastp n ;;
  dmaStreamSetMode dmastp
    (Z.lor (Z.lor (Z.lor (Z.lor mode STM32_DMA_CR_MINC) STM32_DMA_CR_PINC)
                  STM32_DMA_CR_DIR_M2M)
           STM32_DMA_CR_EN).

(** The polling loop of [dmaWaitCompletion]:
    [while ((dmastp)->channel->CNDTR > 0U) ;].
    [CNDTR] is volatile: between two polls the hardware moves the machine by
    [hw], which the loop cannot see except through the register.  [fuel]
    bounds the number of polls; the C loop has no bound.  After the poll
    that ends the loop the macro goes straight on to [dmaStreamDisable]. *)
Fixpoint dmaWaitCompletion_poll (hw : machine -> machine) (fuel : nat)
  (dmastp : stm32_dma_stream_t) : io unit :=
  match fuel with
  | O => fail OutOfFuel
  | S fuel' =>
      n <- load (CH_CNDTR (channel dmastp)) ;;
      if n >? 0
      then (fun m => dmaWaitCompletion_poll hw fuel' dmastp (hw m))
      else ret tt
  end.

Definition dmaWaitCompletion (hw : machine -> machine) (fuel : nat)
  (dmastp : stm32_dma_stream_t) : io unit :=
  dmaWaitCompletion_poll hw fuel dmastp ;;
  dmaStreamDisable dmastp.

(** The dispatcher.  [flags] is the masked status nibble; the control
    register only decides whether the stream is served, [flags] itself is
    what is written back and what the callback receives. *)
Definition dmaServeInterrupt (dmastp : stm32_dma_stream_t) : io unit :=
  let idx := selfindex dmastp in
  isr <- load (DMA_ISR (dma dmastp)) ;;
  let flags := Z.land (Z.shiftr isr (shift dmastp)) STM32_DMA_ISR_MASK in
  ccr <- load (CH_CCR (channel dmastp)) ;;
  if Z.land flags ccr =? 0
  then ret tt
  else
    store (DMA_IFCR (dma dmastp)) (u32 (Z.shiftl flags (shift dmastp))) ;;
    e <- redir_at idx ;;
    if dma_func e =? 0
    then ret tt
    else call (dma_func e) (dma_param e) flags.

End Driver.

(* ===================================================================== *)
(** ** The stream allocator *)
(* ===================================================================== *)

Inductive alloc_error : Type :=
| InvalidPriority
| ResourceExhausted.

(** A stream is free when its redirection entry holds no callback. *)
Definition stream_is_free (m : machine) (s : stm32_dma_stream_t) : bool :=
  match nth_error (_stm32_dma_isr_redir m) (selfindex s) with
  | Some e => dma_func e =? 0
  | None => false
  end.

Fixpoint set_nth {A : Type} (l : list A) (k : nat) (v : A) : list A :=
  match l, k with
  | [], _ => []
  | _ :: t, O => v :: t
  | h :: t, S k' => h :: set_nth t k' v
  end.

(** Modelled from the spec: [dmaStreamAllocate] is defined in stm32_dma.c,
    which is not among the sources (the header only has its prototype), and
    so is the descriptor table [_stm32_dma_streams], taken here as
    [table].  Spec §4.1: a priority outside the valid range fails with
    [InvalidPriority]; otherwise the first free stream in table order is
    chosen and [(callback, parameter)] is installed in its redirection
    entry; when no stream is free the call fails with [ResourceExhausted]
    and has no side effect.  The priority of the interrupt vector lives in
    the interrupt controller, which the machine does not contain. *)
Definition dmaStreamAllocate (table : list stm32_dma_stream_t)
  (priority func param : Z) (m : machine)
  : alloc_error + stm32_dma_stream_t * machine :=
  if negb (STM32_DMA_IS_VALID_PRIORITY priority)
  then inl InvalidPriority
  else match find (stream_is_free m) table with
       | None => inl ResourceExhausted
       | Some s =>
           inr (s, mkMachine (units m) (channels m)
                     (set_nth (_stm32_dma_isr_redir m) (selfindex s)
                              (mkRedir func param))
                     (trace m))
       end.

(* ===================================================================== *)
(** ** cfe_psp_chibios.c *)
(* ===================================================================== *)

Module CFE_PSP.

(** How a call of a [void] function ends: it comes back to its caller, or
    the system is halted and it never does. *)
Inductive outcome : Type :=
| Returns
| Halts (reason : Z).

(** Modelled from the spec: [chSysHalt] belongs to the kernel (ch.h) and is
    not among the sources.  Its contract (§7): accept an opaque code, halt
    permanently, never return. *)
Definition chSysHalt (reason : Z) : outcome := Halts reason.

(** [void CFE_PSP_Restart(uint32 reset_type) { (void)reset_type; }] *)
Definition CFE_PSP_Restart (reset_type : Z) : outcome := Returns.

(** [void CFE_PSP_Panic(int32 ErrorCode) { chSysHalt((char * )ErrorCode); }]
    The cast to a pointer reinterprets the code as a 32-bit address. *)
Definition CFE_PSP_Panic (ErrorCode : Z) : outcome :=
  chSysHalt (u32 ErrorCode).

End CFE_PSP.

(* ===================================================================== *)
(** ** A concrete device and sample machines *)
(* ===================================================================== *)

(** The bit assignment of the STM32 DMA (non-advanced) controllers: enable
    at bit 0, then transfer-complete, half-transfer and transfer-error at
    bits 1 to 3, in the control register as in each status nibble. *)
#[export] Instance stm32_cmsis : device_header := {|
  DMA_CCR_EN      := 0x0001;
  DMA_CCR_TCIE    := 0x0002;
  DMA_CCR_HTIE    := 0x0004;
  DMA_CCR_TEIE    := 0x0008;
  DMA_CCR_DIR     := 0x0010;
  DMA_CCR_CIRC    := 0x0020;
  DMA_CCR_PINC    := 0x0040;
  DMA_CCR_MINC    := 0x0080;
  DMA_CCR_MEM2MEM := 0x4000;
  DMA_ISR_TCIF1   := 0x0002;
  DMA_ISR_HTIF1   := 0x0004;
  DMA_ISR_TEIF1   := 0x0008;
  DMA_CCR_EN_u32      := ltac:(unfold is_u32; lia);
  DMA_CCR_PINC_u32    := ltac:(unfold is_u32; lia);
  DMA_CCR_MINC_u32    := ltac:(unfold is_u32; lia);
  DMA_CCR_MEM2MEM_u32 := ltac:(unfold is_u32; lia)
|}.

(** Stream [k] (counted from 0) of controller 0: channel [k], status nibble
    at bit [4 * k], entry [k] of the redirection table. *)
Definition sample_stream (k : nat) : stm32_dma_stream_t :=
  mkStream 0 k (Z.shiftl 1 (Z.of_nat k)) k (4 * Z.of_nat k) k
           (11 + Z.of_nat k).

(** A machine whose controllers all show [isr], whose channels all hold
    control word [ccr] and [n] remaining transfers, with an empty trace. *)
Definition sample_machine (isr ccr n : Z) (redir : list dma_isr_redir_t)
  : machine :=
  mkMachine (fun _ => mkDMA isr) (fun _ => mkChannel ccr n 0 0) redir [].

(** Two registered callbacks. *)
Definition sample_redir : list dma_isr_redir_t :=
  [mkRedir 0x08001000 0x20000000; mkRedir 0x08002000 0x20000100].

(** The hardware between two polls of a running transfer: one more data
    unit has been moved. *)
Definition sample_hw (c : nat) (m : machine) : machine :=
  let ch := channels m c in
  mkMachine (units m)
            (upd (channels m) c
                 (mkChannel (CCR ch) (Z.max 0 (CNDTR ch - 1)) (CPAR ch)
                            (CMAR ch)))
            (_stm32_dma_isr_redir m) (trace m).

(* ===================================================================== *)
(** ** Observations on machines and traces *)
(* ===================================================================== *)

(** The status nibble of a stream fits in the 32-bit status register. *)
Definition stream_ok (s : stm32_dma_stream_t) : Prop :=
  0 <= shift s /\ shift s + 4 <= 32.

(** [((dmastp)->dma->ISR >> (dmastp)->shift) & STM32_DMA_ISR_MASK]: the
    status bits of the stream, aligned to bit zero. *)
Definition status_flags (s : stm32_dma_stream_t) (m : machine) : Z :=
  Z.land (Z.shiftr (ISR (units m (dma s))) (shift s)) STM32_DMA_ISR_MASK.

(** [flags & (dmastp)->channel->CCR]: the status bits whose interrupt-enable
    bit, at the same position of the control register, is set. *)
Definition enabled_flags (s : stm32_dma_stream_t) (m : machine) : Z :=
  Z.land (status_flags s m) (CCR (channels m (channel s))).

(** [f << (dmastp)->shift] as a [uint32_t]. *)
Definition at_offset (s : stm32_dma_stream_t) (f : Z) : Z :=
  u32 (Z.shiftl f (shift s)).

Definition reg_eqb (a b : reg) : bool :=
  match a, b with
  | DMA_ISR x, DMA_ISR y => Nat.eqb x y
  | DMA_IFCR x, DMA_IFCR y => Nat.eqb x y
  | CH_CCR x, CH_CCR y => Nat.eqb x y
  | CH_CNDTR x, CH_CNDTR y => Nat.eqb x y
  | CH_CPAR x, CH_CPAR y => Nat.eqb x y
  | CH_CMAR x, CH_CMAR y => Nat.eqb x y
  | _, _ => false
  end.

(** The values written to register [r], in order. *)
Fixpoint stores_to (r : reg) (t : list event) : list Z :=
  match t with
  | [] => []
  | Store r' v :: t' =>
      if reg_eqb r' r then v :: stores_to r t' else stores_to r t'
  | _ :: t' => stores_to r t'
  end.

(** The callback invocations, in order, as (function, parameter, flags). *)
Fixpoint callbacks_of (t : list event) : list (Z * Z * Z) :=
  match t with
  | [] => []
  | Callback f p fl :: t' => (f, p, fl) :: callbacks_of t'
  | _ :: t' => callbacks_of t'
  end.

(** What the specification says the dispatcher acknowledges: the filtered
    flags, re-shifted to the stream's offset. *)
Definition spec_acknowledged (s : stm32_dma_stream_t) (m : machine) : Z :=
  at_offset s (enabled_flags s m).

(** What the specification says [ClearInterrupt] writes: the status bits the
    stream currently shows, re-shifted to its offset. *)
Definition spec_clear_value (s : stm32_dma_stream_t) (m : machine) : Z :=
  at_offset s (status_flags s m).

(** One unsuccessful poll of [dmaWaitCompletion]: the count register is
    read, then the hardware moves on. *)
Definition poll_miss (hw : machine -> machine) (s : stm32_dma_stream_t)
  (m : machine) : machine :=
  hw (log (Load (CH_CNDTR (channel s)) (CNDTR (channels m (channel s)))) m).

(** The machine once the dispatcher has read the status register and the
    control register of the stream. *)
Definition observed (s : stm32_dma_stream_t) (m : machine) : machine :=
  log (Load (CH_CCR (channel s)) (CCR (channels m (channel s))))
      (log (Load (DMA_ISR (dma s)) (ISR (units m (dma s)))) m).

(** The machine once the dispatcher has, after that, written [flags << shift]
    to the clear-flags register. *)
Definition acknowledged (s : stm32_dma_stream_t) (m : machine) : machine :=
  log (Store (DMA_IFCR (dma s)) (at_offset s (status_flags s m)))
      (poke (DMA_IFCR (dma s)) (at_offset s (status_flags s m))
            (observed s m)).

(** [STM32_DMA_CR_PL(n)]: [((n) << 12U)], for a [uint32_t] priority. *)
Definition STM32_DMA_CR_PL (n : Z) : Z := u32 (Z.shiftl n 12).

(** The hardware showing [isr] in the status register of controller [d]:
    flags raised by transfers, between two accesses of the processor. *)
Definition hw_status (d : nat) (isr : Z) (m : machine) : machine :=
  mkMachine (upd (units m) d (mkDMA isr)) (channels m)
            (_stm32_dma_isr_redir m) (trace m).

(** [~(STM32_DMA_CR_TCIE | STM32_DMA_CR_HTIE | STM32_DMA_CR_TEIE |
    STM32_DMA_CR_EN)]: the word [dmaStreamDisable] ANDs into the control
    register. *)
Definition disable_mask {hdr : device_header} : Z :=
  u32 (Z.lnot (Z.lor (Z.lor (Z.lor STM32_DMA_CR_TCIE STM32_DMA_CR_HTIE)
                            STM32_DMA_CR_TEIE)
                     STM32_DMA_CR_EN)).

(* ===================================================================== *)
(** ** Words and bits *)
(* ===================================================================== *)

Lemma u32_small (z : Z) : is_u32 z -> u32 z = z.
Proof. intros Hz. unfold u32. apply Z.mod_small. exact Hz. Qed.

Lemma u32_is_u32 (z : Z) : is_u32 (u32 z).
Proof. unfold is_u32, u32. apply Z.mod_pos_bound. lia. Qed.

Lemma u32_testbit (z i : Z) :
  0 <= i -> Z.testbit (u32 z) i = (i <? 32) && Z.testbit z i.
Proof.
  intros Hi. unfold u32.
  destruct (Z.ltb_spec i 32) as [Hlt | Hge]; cbn [andb].
  - apply Z.mod_pow2_bits_low. lia.
  - apply Z.mod_pow2_bits_high. lia.
Qed.

Lemma mask_testbit (i : Z) :
  Z.testbit STM32_DMA_ISR_MASK i = (1 <=? i) && (i <=? 3).
Proof.
  unfold STM32_DMA_ISR_MASK.
  destruct (Z.ltb_spec i 0) as [Hneg | Hpos].
  - rewrite Z.testbit_neg_r by lia.
    destruct (Z.leb_spec 1 i); [lia | reflexivity].
  - destruct (Z.ltb_spec i 4) as [Hlow | Hhigh].
    + assert (Hc : i = 0 \/ i = 1 \/ i = 2 \/ i = 3) by lia.
      destruct Hc as [-> | [-> | [-> | ->]]]; reflexivity.
    + rewrite Z.bits_above_log2 by (cbn; lia).
      destruct (Z.leb_spec i 3); [lia |].
      now rewrite andb_false_r.
Qed.

Lemma upd_same {A : Type} (f : nat -> A) (k : nat) (v : A) : upd f k v k = v.
Proof. unfold upd. now rewrite Nat.eqb_refl. Qed.

Lemma upd_other {A : Type} (f : nat -> A) (k j : nat) (v : A) :
  j <> k -> upd f k v j = f j.
Proof.
  intros Hjk. unfold upd.
  destruct (Nat.eqb_spec j k); [contradiction | reflexivity].
Qed.

(** Rewrites the bit at index [i] of the word operations of the driver. *)
Ltac bits i Hi :=
  repeat first
    [ rewrite Z.land_spec | rewrite Z.lor_spec | rewrite Z.ldiff_spec
    | rewrite (u32_testbit _ _ Hi) | rewrite (Z.shiftl_spec _ _ _ Hi)
    | rewrite (Z.shiftr_spec _ _ _ Hi) | rewrite mask_testbit ].

Lemma u32_lor (a b : Z) : u32 (Z.lor a b) = Z.lor (u32 a) (u32 b).
Proof.
  apply Z.bits_inj'. intros i Hi. bits i Hi.
  now destruct (i <? 32), (Z.testbit a i), (Z.testbit b i).
Qed.

Lemma is_u32_lor (a b : Z) : is_u32 a -> is_u32 b -> is_u32 (Z.lor a b).
Proof.
  intros Ha Hb.
  rewrite <- (u32_small a Ha), <- (u32_small b Hb), <- u32_lor.
  apply u32_is_u32.
Qed.

(** A bit that was OR-ed into a word is found in it. *)
Lemma land_lor_absorb (a b : Z) : Z.land (Z.lor a b) b = b.
Proof.
  apply Z.bits_inj'. intros i Hi. bits i Hi.
  now destruct (Z.testbit a i), (Z.testbit b i).
Qed.

Lemma land_lor_keep (a b c : Z) :
  Z.land a c = c -> Z.land (Z.lor a b) c = c.
Proof.
  intros Hac. rewrite Z.land_lor_distr_l, Hac.
  apply Z.bits_inj'. intros i Hi. bits i Hi.
  now destruct (Z.testbit b i), (Z.testbit c i).
Qed.

(** A bit of the complemented mask reads as zero after the AND. *)
Lemma land_clear (x a b : Z) :
  Z.land a b = b -> Z.land (Z.land x (u32 (Z.lnot a))) b = 0.
Proof.
  intros Hab. apply Z.bits_inj'. intros i Hi. bits i Hi.
  rewrite Z.lnot_spec by exact Hi. rewrite Z.bits_0.
  assert (Hb : Z.testbit b i = Z.testbit a i && Z.testbit b i)
    by now rewrite <- Z.land_spec, Hab.
  destruct (Z.testbit x i), (i <? 32), (Z.testbit a i), (Z.testbit b i);
    cbn in *; congruence.
Qed.

(* ===================================================================== *)
(** ** Running the macros on concrete machines *)
(* ===================================================================== *)

Example sample_stream_shift :
  map (fun k => shift (sample_stream k)) [0; 1; 2; 7]%nat
  = map STM32_DMA_ISR_SHIFT [1; 2; 3; 8].
Proof. reflexivity. Qed.

Example clear_interrupt_stream1 :
  stores_to (DMA_IFCR 0)
    (match dmaStreamClearInterrupt (sample_stream 1)
             (sample_machine 0x20 0 0 sample_redir) with
     | Done _ m' => trace m'
     | Stuck _ => []
     end) = [0xE0].
Proof. reflexivity. Qed.

Example serve_interrupt_stream1 :
  match dmaServeInterrupt (sample_stream 1)
          (sample_machine 0xA5 0x0A 0 sample_redir) with
  | Done _ m' => trace m'
  | Stuck _ => []
  end = [Load (DMA_ISR 0) 0xA5; Load (CH_CCR 1) 0x0A;
         Store (DMA_IFCR 0) 0xA0; Callback 0x08002000 0x20000100 0x0A].
Proof. reflexivity. Qed.

Example wait_completion_100 :
  match dmaWaitCompletion (sample_hw 0) 101 (sample_stream 0)
          (sample_machine 0 0x40C1 100 sample_redir) with
  | Done _ m' => (CNDTR (channels m' 0), CCR (channels m' 0))
  | Stuck _ => (-1, -1)
  end = (0, 0x40C0).
Proof. vm_compute. reflexivity. Qed.

Example wait_completion_cut :
  dmaWaitCompletion (sample_hw 0) 100 (sample_stream 0)
    (sample_machine 0 0x40C1 100 sample_redir) = Stuck OutOfFuel.
Proof. vm_compute. reflexivity. Qed.

(* ===================================================================== *)
(** ** Register-level control operations *)
(* ===================================================================== *)

(** The status bits a stream shows are always among those of the full mask
    written by [dmaStreamClearInterrupt]. *)
Lemma at_offset_status_covered (s : stm32_dma_stream_t) (m : machine) :
  Z.land (at_offset s (status_flags s m)) (at_offset s STM32_DMA_ISR_MASK)
  = at_offset s (status_flags s m).
Proof.
  unfold at_offset, status_flags.
  apply Z.bits_inj'. intros i Hi. bits i Hi.
  destruct (Z.leb_spec 0 (i - shift s)) as [Hpos | Hneg].
  - rewrite Z.shiftr_spec by exact Hpos.
    now destruct (i <? 32), (Z.testbit _ _), ((1 <=? _) && _).
  - rewrite !(Z.testbit_neg_r _ (i - shift s)) by lia.
    now destruct (i <? 32).
Qed.

(** After the full mask has been written to the clear-flags register no
    status bit of the stream is left. *)
Lemma status_flags_after_clear (s : stm32_dma_stream_t) (isr : Z) :
  stream_ok s ->
  Z.land (Z.shiftr (Z.ldiff isr (at_offset s STM32_DMA_ISR_MASK)) (shift s))
         STM32_DMA_ISR_MASK = 0.
Proof.
  intros [Hlo Hhi]. unfold at_offset.
  apply Z.bits_inj'. intros i Hi. bits i Hi. rewrite Z.bits_0.
  destruct (Z.leb_spec 1 i) as [H1 | H1]; cbn [andb];
    [| now rewrite andb_false_r].
  destruct (Z.leb_spec i 3) as [H3 | H3]; cbn [andb];
    [| now rewrite andb_false_r].
  rewrite u32_testbit by lia.
  rewrite Z.shiftl_spec by lia.
  replace (i + shift s - shift s) with i by lia.
  rewrite mask_testbit.
  destruct (Z.ltb_spec (i + shift s) 32); [| lia].
  destruct (Z.leb_spec 1 i); [| lia].
  destruct (Z.leb_spec i 3); [| lia].
  cbn. now rewrite !andb_false_r.
Qed.

(** C7, as the code has it: whatever the status register holds,
    [dmaStreamClearInterrupt] performs one write, of the constant mask 0x0E
    shifted to the stream's offset, to the shared clear-flags register.  The
    value does not depend on the status bits observed; it covers all of them.
    The channel registers, among them the control register with its enable
    and interrupt-enable bits, are left as they were. *)
Theorem dmaStreamClearInterrupt_writes_full_mask
  (s : stm32_dma_stream_t) (m : machine) :
  exists m',
    dmaStreamClearInterrupt s m = Done tt m'
    /\ trace m' = trace m ++ [Store (DMA_IFCR (dma s))
                                    (u32 (Z.shiftl 0x0E (shift s)))]
    /\ Z.land (spec_clear_value s m) (u32 (Z.shiftl 0x0E (shift s)))
       = spec_clear_value s m
    /\ channels m' = channels m
    /\ CCR (channels m' (channel s)) = CCR (channels m (channel s)).
Proof.
  eexists. split; [reflexivity |].
  split; [reflexivity |].
  split; [apply at_offset_status_covered |].
  split; reflexivity.
Qed.

(** C7, as stated, fails: with only the transfer-complete flag pending the
    value written is 0x0E, not the observed status bits 0x02. *)
Lemma dmaStreamClearInterrupt_ignores_status :
  exists m',
    dmaStreamClearInterrupt (sample_stream 0)
      (sample_machine 0x02 0 0 sample_redir) = Done tt m'
    /\ stores_to (DMA_IFCR 0) (trace m') = [0x0E]
    /\ spec_clear_value (sample_stream 0)
         (sample_machine 0x02 0 0 sample_redir) = 0x02
    /\ stores_to (DMA_IFCR 0) (trace m')
       <> [spec_clear_value (sample_stream 0)
             (sample_machine 0x02 0 0 sample_redir)].
Proof.
  eexists. split; [reflexivity |].
  split; [reflexivity |].
  split; [reflexivity |].
  vm_compute. discriminate.
Qed.

Section Control.

Context {hdr : device_header}.

Lemma disable_clears (x b : Z) :
  b = STM32_DMA_CR_TCIE \/ b = STM32_DMA_CR_HTIE \/
  b = STM32_DMA_CR_TEIE \/ b = STM32_DMA_CR_EN ->
  Z.land (Z.land x disable_mask) b = 0.
Proof.
  intros Hb. unfold disable_mask. apply land_clear.
  destruct Hb as [-> | [-> | [-> | ->]]].
  - apply land_lor_keep, land_lor_keep.
    rewrite Z.lor_comm. apply land_lor_absorb.
  - apply land_lor_keep, land_lor_keep, land_lor_absorb.
  - apply land_lor_keep, land_lor_absorb.
  - apply land_lor_absorb.
Qed.

(** What [dmaStreamDisable] does, access by access. *)
Lemma dmaStreamDisable_run (s : stm32_dma_stream_t) (m : machine) :
  let ch := channels m (channel s) in
  dmaStreamDisable s m =
  Done tt
    (mkMachine
       (upd (units m) (dma s)
            (mkDMA (Z.ldiff (ISR (units m (dma s)))
                            (at_offset s STM32_DMA_ISR_MASK))))
       (upd (channels m) (channel s)
            (mkChannel (Z.land (CCR ch) disable_mask) (CNDTR ch) (CPAR ch)
                       (CMAR ch)))
       (_stm32_dma_isr_redir m)
       (((trace m ++ [Load (CH_CCR (channel s)) (CCR ch)])
           ++ [Store (CH_CCR (channel s)) (Z.land (CCR ch) disable_mask)])
           ++ [Store (DMA_IFCR (dma s)) (at_offset s STM32_DMA_ISR_MASK)])).
Proof. reflexivity. Qed.

(** C4: whatever the control register held, [dmaStreamDisable] first
    rewrites it once with the enable bit and the three interrupt-enable bits
    cleared and only then writes the stream's mask to the clear-flags
    register; afterwards the enable bit and the interrupt-enable bits read
    zero and no status flag of the stream is pending. *)
Theorem dmaStreamDisable_clears_enables_then_flags
  (s : stm32_dma_stream_t) (m : machine) :
  stream_ok s ->
  exists m',
    dmaStreamDisable s m = Done tt m'
    /\ trace m' =
       trace m ++
         [Load (CH_CCR (channel s)) (CCR (channels m (channel s)));
          Store (CH_CCR (channel s))
                (Z.land (CCR (channels m (channel s))) disable_mask);
          Store (DMA_IFCR (dma s)) (u32 (Z.shiftl 0x0E (shift s)))]
    /\ Z.land (CCR (channels m' (channel s))) STM32_DMA_CR_EN = 0
    /\ Z.land (CCR (channels m' (channel s))) STM32_DMA_CR_TCIE = 0
    /\ Z.land (CCR (channels m' (channel s))) STM32_DMA_CR_HTIE = 0
    /\ Z.land (CCR (channels m' (channel s))) STM32_DMA_CR_TEIE = 0
    /\ status_flags s m' = 0.
Proof.
  intros Hok. eexists. split; [apply dmaStreamDisable_run |].
  cbn [trace channels units]. rewrite !upd_same. cbn [CCR].
  split; [now rewrite <- !app_assoc |].
  split; [apply disable_clears; auto |].
  split; [apply disable_clears; auto |].
  split; [apply disable_clears; auto |].
  split; [apply disable_clears; auto |].
  unfold status_flags. cbn [units]. rewrite upd_same. cbn [ISR].
  now apply status_flags_after_clear.
Qed.

End Control.

Lemma dmaStreamDisable_clears_enables_then_flags_witness :
  stream_ok (sample_stream 1)
  /\ exists m',
    dmaStreamDisable (sample_stream 1)
      (sample_machine 0xA5 0x40CF 7 sample_redir) = Done tt m'
    /\ trace m' = [Load (CH_CCR 1) 0x40CF; Store (CH_CCR 1) 0x40C0;
                   Store (DMA_IFCR 0) 0xE0]
    /\ Z.land (CCR (channels m' 1)) STM32_DMA_CR_EN = 0
    /\ Z.land (CCR (channels m' 1)) STM32_DMA_CR_TCIE = 0
    /\ Z.land (CCR (channels m' 1)) STM32_DMA_CR_HTIE = 0
    /\ Z.land (CCR (channels m' 1)) STM32_DMA_CR_TEIE = 0
    /\ status_flags (sample_stream 1) m' = 0.
Proof.
  assert (Hok : stream_ok (sample_stream 1))
    by (unfold stream_ok; simpl; lia).
  split; [exact Hok |].
  exact (dmaStreamDisable_clears_enables_then_flags (hdr := stm32_cmsis)
           (sample_stream 1) (sample_machine 0xA5 0x40CF 7 sample_redir) Hok).
Defined.

Section Transfers.

Context {hdr : device_header}.

(** C5: for 32-bit arguments, [dmaStartMemCopy] writes the source to the
    peripheral-address register, the destination to the memory-address
    register, the count to the transaction-count register and last the
    control register, with the caller's mode OR-ed with memory increment,
    peripheral increment, memory-to-memory direction and enable: the word
    written holds these four bits and every bit of the mode. *)
Theorem dmaStartMemCopy_programs_stream
  (s : stm32_dma_stream_t) (mode src dst n : Z) (m : machine) :
  is_u32 mode -> is_u32 src -> is_u32 dst -> is_u32 n ->
  let cr := Z.lor (Z.lor (Z.lor (Z.lor mode STM32_DMA_CR_MINC)
                                STM32_DMA_CR_PINC)
                         STM32_DMA_CR_DIR_M2M)
                  STM32_DMA_CR_EN in
  exists m',
    dmaStartMemCopy s mode src dst n m = Done tt m'
    /\ trace m' = trace m ++ [Store (CH_CPAR (channel s)) src;
                              Store (CH_CMAR (channel s)) dst;
                              Store (CH_CNDTR (channel s)) n;
                              Store (CH_CCR (channel s)) cr]
    /\ channels m' (channel s) = mkChannel cr n src dst
    /\ Z.land cr STM32_DMA_CR_MINC = STM32_DMA_CR_MINC
    /\ Z.land cr STM32_DMA_CR_PINC = STM32_DMA_CR_PINC
    /\ Z.land cr STM32_DMA_CR_DIR_M2M = STM32_DMA_CR_DIR_M2M
    /\ Z.land cr STM32_DMA_CR_EN = STM32_DMA_CR_EN
    /\ Z.land cr mode = mode.
Proof.
  intros Hmode Hsrc Hdst Hn cr.
  assert (Hcr : u32 cr = cr).
  { apply u32_small. unfold cr.
    repeat apply is_u32_lor; try assumption.
    - apply DMA_CCR_MINC_u32.
    - apply DMA_CCR_PINC_u32.
    - apply DMA_CCR_MEM2MEM_u32.
    - apply DMA_CCR_EN_u32. }
  eexists. split; [reflexivity |].
  cbn [trace channels log poke]. fold cr.
  rewrite Hcr, (u32_small _ Hsrc), (u32_small _ Hdst), (u32_small _ Hn).
  split; [now rewrite <- !app_assoc |].
  split; [now rewrite !upd_same |].
  unfold cr.
  split; [do 3 apply land_lor_keep; apply land_lor_absorb |].
  split; [do 2 apply land_lor_keep; apply land_lor_absorb |].
  split; [apply land_lor_keep, land_lor_absorb |].
  split; [apply land_lor_absorb |].
  do 4 apply land_lor_keep. apply Z.land_diag.
Qed.

Variable hw : machine -> machine.
Variable s : stm32_dma_stream_t.

Let count (m : machine) : Z := CNDTR (channels m (channel s)).
Let polls (k : nat) (m : machine) : machine := Nat.iter k (poll_miss hw s) m.

(** The first poll that does not see a positive count. *)
Lemma first_exit (k : nat) :
  forall m, count (polls k m) <= 0 ->
  exists j, (j <= k)%nat
            /\ (forall i, (i < j)%nat -> count (polls i m) > 0)
            /\ count (polls j m) <= 0.
Proof.
  induction k as [| k IH]; intros m Hk.
  - exists O. split; [lia |]. split; [intros i Hi; lia | exact Hk].
  - destruct (Z_le_gt_dec (count m) 0) as [Hle | Hgt].
    + exists O. split; [lia |]. split; [intros i Hi; lia | exact Hle].
    + unfold polls in Hk. rewrite Nat.iter_succ_r in Hk.
      destruct (IH _ Hk) as (j & Hjk & Hbefore & Hj).
      exists (S j). split; [lia |]. split.
      * intros [| i] Hi; [exact Hgt |].
        unfold polls. rewrite Nat.iter_succ_r. apply Hbefore. lia.
      * unfold polls. rewrite Nat.iter_succ_r. exact Hj.
Qed.

(** With more fuel than misses the loop ends at the first such poll. *)
Lemma dmaWaitCompletion_poll_exit (j : nat) :
  forall m fuel,
    (forall i, (i < j)%nat -> count (polls i m) > 0) ->
    count (polls j m) <= 0 ->
    (j < fuel)%nat ->
    dmaWaitCompletion_poll hw fuel s m =
    Done tt (log (Load (CH_CNDTR (channel s)) (count (polls j m)))
                 (polls j m)).
Proof.
  induction j as [| j IH]; intros m fuel Hbefore Hj Hfuel;
    (destruct fuel as [| fuel]; [lia |]).
  - cbn in Hj. cbn [dmaWaitCompletion_poll]. unfold bind, load. cbn [peek].
    fold (count m). destruct (Z.gtb_spec (count m) 0); [lia | reflexivity].
  - cbn [dmaWaitCompletion_poll]. unfold bind, load. cbn [peek].
    fold (count m).
    assert (H0 : count m > 0) by (apply (Hbefore O); lia).
    destruct (Z.gtb_spec (count m) 0); [| lia].
    unfold polls. rewrite Nat.iter_succ_r.
    apply IH; [| | lia].
    + intros i Hi. specialize (Hbefore (S i)).
      unfold polls in Hbefore. rewrite Nat.iter_succ_r in Hbefore.
      apply Hbefore. lia.
    + unfold polls in Hj. rewrite Nat.iter_succ_r in Hj. exact Hj.
Qed.

(** With no more fuel than misses the loop is cut. *)
Lemma dmaWaitCompletion_poll_cut (fuel : nat) :
  forall m,
    (forall i, (i < fuel)%nat -> count (polls i m) > 0) ->
    dmaWaitCompletion_poll hw fuel s m = Stuck OutOfFuel.
Proof.
  induction fuel as [| fuel IH]; intros m Hbefore; [reflexivity |].
  cbn [dmaWaitCompletion_poll]. unfold bind, load. cbn [peek].
  fold (count m).
  assert (H0 : count m > 0) by (apply (Hbefore O); lia).
  destruct (Z.gtb_spec (count m) 0); [| lia].
  apply IH. intros i Hi. specialize (Hbefore (S i)).
  unfold polls in Hbefore. rewrite Nat.iter_succ_r in Hbefore.
  apply Hbefore. lia.
Qed.

(** The count register never shows a negative value. *)
Lemma count_nonneg (j : nat) (m : machine) :
  (forall m0, 0 <= count (hw m0)) -> 0 <= count m -> 0 <= count (polls j m).
Proof.
  intros Hhw Hm. destruct j as [| j]; [exact Hm |].
  unfold polls. cbn [Nat.iter]. apply Hhw.
Qed.

(** C6: when the hardware brings the transaction count to zero after some
    number of polls, [dmaWaitCompletion] reads the count register until the
    first poll that sees zero and then runs [dmaStreamDisable]; it returns
    as soon as it is given more polls than that; on return the transaction
    size reads zero and the enable bit of the control register is clear. *)
Theorem dmaWaitCompletion_polls_then_disables (m : machine) (k : nat) :
  (forall m0, 0 <= CNDTR (channels (hw m0) (channel s))) ->
  0 <= CNDTR (channels m (channel s)) ->
  CNDTR (channels (Nat.iter k (poll_miss hw s) m) (channel s)) = 0 ->
  exists j m',
    (j <= k)%nat
    /\ (forall i, (i < j)%nat ->
          CNDTR (channels (Nat.iter i (poll_miss hw s) m) (channel s)) > 0)
    /\ CNDTR (channels (Nat.iter j (poll_miss hw s) m) (channel s)) = 0
    /\ (forall fuel, (fuel <= j)%nat ->
          dmaWaitCompletion hw fuel s m = Stuck OutOfFuel)
    /\ (forall fuel, (j < fuel)%nat ->
          dmaWaitCompletion hw fuel s m = Done tt m')
    /\ dmaStreamDisable s
         (log (Load (CH_CNDTR (channel s)) 0)
              (Nat.iter j (poll_miss hw s) m)) = Done tt m'
    /\ dmaStreamGetTransactionSize s m'
       = Done 0 (log (Load (CH_CNDTR (channel s)) 0) m')
    /\ Z.land (CCR (channels m' (channel s))) STM32_DMA_CR_EN = 0.
Proof.
  intros Hhw Hm Hk.
  destruct (first_exit k m) as (j & Hjk & Hbefore & Hj);
    [fold (polls k m) (count (polls k m)) in Hk; lia |].
  assert (Hzero : count (polls j m) = 0)
    by (pose proof (count_nonneg j m Hhw Hm); lia).
  eexists j, _.
  split; [exact Hjk |].
  split; [exact Hbefore |].
  split; [exact Hzero |].
  split.
  { intros fuel Hfuel. unfold dmaWaitCompletion, bind.
    rewrite dmaWaitCompletion_poll_cut; [reflexivity |].
    intros i Hi. apply Hbefore. lia. }
  split.
  { intros fuel Hfuel. unfold dmaWaitCompletion, bind.
    rewrite (dmaWaitCompletion_poll_exit j m fuel Hbefore Hj Hfuel).
    rewrite Hzero. apply dmaStreamDisable_run. }
  split; [apply dmaStreamDisable_run |].
  split.
  - unfold dmaStreamGetTransactionSize, load.
    cbn [peek channels log]. rewrite upd_same. cbn [CNDTR].
    fold (polls j m) (count (polls j m)). rewrite Hzero. reflexivity.
  - cbn [channels log]. rewrite upd_same. cbn [CCR].
    apply disable_clears. auto.
Qed.

End Transfers.

Lemma dmaStartMemCopy_programs_stream_witness :
  exists m',
    dmaStartMemCopy (sample_stream 0) 0x0500 0x20000400 0x20000800 100
      (sample_machine 0 0 0 sample_redir) = Done tt m'
    /\ trace m' = [Store (CH_CPAR 0) 0x20000400; Store (CH_CMAR 0) 0x20000800;
                   Store (CH_CNDTR 0) 100; Store (CH_CCR 0) 0x45C1]
    /\ channels m' 0 = mkChannel 0x45C1 100 0x20000400 0x20000800
    /\ Z.land 0x45C1 STM32_DMA_CR_MINC = STM32_DMA_CR_MINC
    /\ Z.land 0x45C1 STM32_DMA_CR_PINC = STM32_DMA_CR_PINC
    /\ Z.land 0x45C1 STM32_DMA_CR_DIR_M2M = STM32_DMA_CR_DIR_M2M
    /\ Z.land 0x45C1 STM32_DMA_CR_EN = STM32_DMA_CR_EN
    /\ Z.land 0x45C1 0x0500 = 0x0500.
Proof.
  apply (dmaStartMemCopy_programs_stream (hdr := stm32_cmsis)
           (sample_stream 0) 0x0500 0x20000400 0x20000800 100
           (sample_machine 0 0 0 sample_redir));
    unfold is_u32; lia.
Defined.

Lemma dmaWaitCompletion_polls_then_disables_witness :
  exists j m',
    (j <= 3)%nat
    /\ (forall i, (i < j)%nat ->
          CNDTR (channels
                   (Nat.iter i (poll_miss (sample_hw 0) (sample_stream 0))
                      (sample_machine 0 0x40C1 3 sample_redir)) 0) > 0)
    /\ CNDTR (channels
                (Nat.iter j (poll_miss (sample_hw 0) (sample_stream 0))
                   (sample_machine 0 0x40C1 3 sample_redir)) 0) = 0
    /\ (forall fuel, (fuel <= j)%nat ->
          dmaWaitCompletion (sample_hw 0) fuel (sample_stream 0)
            (sample_machine 0 0x40C1 3 sample_redir) = Stuck OutOfFuel)
    /\ (forall fuel, (j < fuel)%nat ->
          dmaWaitCompletion (sample_hw 0) fuel (sample_stream 0)
            (sample_machine 0 0x40C1 3 sample_redir) = Done tt m')
    /\ dmaStreamDisable (sample_stream 0)
         (log (Load (CH_CNDTR 0) 0)
              (Nat.iter j (poll_miss (sample_hw 0) (sample_stream 0))
                 (sample_machine 0 0x40C1 3 sample_redir))) = Done tt m'
    /\ dmaStreamGetTransactionSize (sample_stream 0) m'
       = Done 0 (log (Load (CH_CNDTR 0) 0) m')
    /\ Z.land (CCR (channels m' 0)) STM32_DMA_CR_EN = 0.
Proof.
  apply (dmaWaitCompletion_polls_then_disables (hdr := stm32_cmsis)
           (sample_hw 0) (sample_stream 0)
           (sample_machine 0 0x40C1 3 sample_redir) 3).
  - intros m0. simpl. lia.
  - simpl. lia.
  - reflexivity.
Defined.

(* ===================================================================== *)
(** ** The shared-IRQ dispatcher *)
(* ===================================================================== *)

(** No enabled event: the dispatcher stops after its two reads. *)
Lemma dmaServeInterrupt_skip (s : stm32_dma_stream_t) (m : machine) :
  enabled_flags s m = 0 ->
  dmaServeInterrupt s m = Done tt (observed s m).
Proof.
  intros Hz. unfold dmaServeInterrupt, bind, load. cbn [peek log units channels].
  fold (status_flags s m). fold (enabled_flags s m).
  rewrite Hz. reflexivity.
Qed.

(** An enabled event and no callback: the flags are acknowledged only. *)
Lemma dmaServeInterrupt_null (s : stm32_dma_stream_t) (m : machine)
  (e : dma_isr_redir_t) :
  enabled_flags s m <> 0 ->
  nth_error (_stm32_dma_isr_redir m) (selfindex s) = Some e ->
  dma_func e = 0 ->
  dmaServeInterrupt s m = Done tt (acknowledged s m).
Proof.
  intros Hnz He Hf.
  unfold dmaServeInterrupt, bind, load. cbn [peek log units channels].
  fold (status_flags s m). fold (enabled_flags s m).
  destruct (Z.eqb_spec (enabled_flags s m) 0) as [Heq | _];
    [contradiction |].
  unfold store, redir_at. cbn [_stm32_dma_isr_redir log poke].
  rewrite He, Hf. reflexivity.
Qed.

(** An enabled event and a callback: acknowledge, then call. *)
Lemma dmaServeInterrupt_call (s : stm32_dma_stream_t) (m : machine)
  (e : dma_isr_redir_t) :
  enabled_flags s m <> 0 ->
  nth_error (_stm32_dma_isr_redir m) (selfindex s) = Some e ->
  dma_func e <> 0 ->
  dmaServeInterrupt s m =
  Done tt (log (Callback (dma_func e) (dma_param e) (status_flags s m))
               (acknowledged s m)).
Proof.
  intros Hnz He Hf.
  unfold dmaServeInterrupt, bind, load. cbn [peek log units channels].
  fold (status_flags s m). fold (enabled_flags s m).
  destruct (Z.eqb_spec (enabled_flags s m) 0) as [Heq | _];
    [contradiction |].
  unfold store, redir_at. cbn [_stm32_dma_isr_redir log poke].
  rewrite He.
  destruct (Z.eqb_spec (dma_func e) 0) as [Heq | _]; [contradiction |].
  reflexivity.
Qed.

Lemma stores_to_app (r : reg) (t1 t2 : list event) :
  stores_to r (t1 ++ t2) = stores_to r t1 ++ stores_to r t2.
Proof.
  induction t1 as [| [r' v | r' v | f p fl] t1 IH]; cbn; try exact IH.
  - reflexivity.
  - destruct (reg_eqb r' r); cbn; now rewrite IH.
Qed.

Lemma reg_eqb_refl (r : reg) : reg_eqb r r = true.
Proof. destruct r; cbn; apply Nat.eqb_refl. Qed.

(** The accesses of the three ways through the dispatcher. *)
Lemma trace_observed (s : stm32_dma_stream_t) (m : machine) :
  trace (observed s m) =
  trace m ++ [Load (DMA_ISR (dma s)) (ISR (units m (dma s)));
              Load (CH_CCR (channel s)) (CCR (channels m (channel s)))].
Proof. cbn. now rewrite <- app_assoc. Qed.

Lemma trace_acknowledged (s : stm32_dma_stream_t) (m : machine) :
  trace (acknowledged s m) =
  trace m ++ [Load (DMA_ISR (dma s)) (ISR (units m (dma s)));
              Load (CH_CCR (channel s)) (CCR (channels m (channel s)));
              Store (DMA_IFCR (dma s)) (at_offset s (status_flags s m))].
Proof. cbn. now rewrite <- !app_assoc. Qed.

(** C1, as the code has it: when no observed status bit of the stream has
    its interrupt-enable bit set, the dispatcher writes nothing to the
    clear-flags register; when at least one has, it writes once, and the
    value is every status bit observed under the mask 0x0E, with its enable
    bit set or not, shifted back to the stream's offset. *)
Theorem dmaServeInterrupt_acknowledges_observed
  (s : stm32_dma_stream_t) (m : machine) :
  (selfindex s < length (_stm32_dma_isr_redir m))%nat ->
  exists m' evs,
    dmaServeInterrupt s m = Done tt m'
    /\ trace m' = trace m ++ evs
    /\ stores_to (DMA_IFCR (dma s)) evs =
       (if enabled_flags s m =? 0 then []
        else [u32 (Z.shiftl (status_flags s m) (shift s))]).
Proof.
  intros Hidx.
  destruct (nth_error (_stm32_dma_isr_redir m) (selfindex s)) as [e |] eqn:He;
    [| apply nth_error_None in He; lia].
  destruct (Z.eqb_spec (enabled_flags s m) 0) as [Hz | Hnz].
  - eexists _, _. split; [now apply dmaServeInterrupt_skip |].
    split; [apply trace_observed | reflexivity].
  - destruct (Z.eq_dec (dma_func e) 0) as [Hf | Hf].
    + eexists _, _. split; [now apply (dmaServeInterrupt_null s m e) |].
      split; [apply trace_acknowledged |].
      cbn. now rewrite Nat.eqb_refl.
    + eexists _, _. split; [now apply (dmaServeInterrupt_call s m e) |].
      split.
      * cbn [trace log]. rewrite trace_acknowledged, <- app_assoc.
        reflexivity.
      * cbn. now rewrite Nat.eqb_refl.
Qed.

Lemma dmaServeInterrupt_acknowledges_observed_witness :
  exists m' evs,
    dmaServeInterrupt (sample_stream 1)
      (sample_machine 0xA5 0x0A 0 sample_redir) = Done tt m'
    /\ trace m' = [] ++ evs
    /\ stores_to (DMA_IFCR 0) evs = [0xA0].
Proof.
  apply (dmaServeInterrupt_acknowledges_observed (sample_stream 1)
           (sample_machine 0xA5 0x0A 0 sample_redir)).
  simpl. lia.
Defined.

(** C1, as stated, fails: with only transfer-complete enabled and both
    transfer-error and transfer-complete pending, the dispatcher writes 0x0A
    to the clear-flags register, acknowledging the transfer-error flag whose
    enable bit is clear; the enabled-and-set bits are 0x02. *)
Lemma dmaServeInterrupt_acknowledges_disabled_flag :
  exists m',
    dmaServeInterrupt (sample_stream 0)
      (sample_machine (Z.lor DMA_ISR_TEIF1 DMA_ISR_TCIF1) DMA_CCR_TCIE 0
         sample_redir) = Done tt m'
    /\ stores_to (DMA_IFCR 0) (trace m') = [0x0A]
    /\ spec_acknowledged (sample_stream 0)
         (sample_machine (Z.lor DMA_ISR_TEIF1 DMA_ISR_TCIF1) DMA_CCR_TCIE 0
            sample_redir) = 0x02
    /\ Z.land DMA_CCR_TCIE DMA_CCR_TEIE = 0
    /\ Z.land 0x0A DMA_ISR_TEIF1 = DMA_ISR_TEIF1
    /\ ISR (units m' 0) = 0
    /\ stores_to (DMA_IFCR 0) (trace m')
       <> [spec_acknowledged (sample_stream 0)
             (sample_machine (Z.lor DMA_ISR_TEIF1 DMA_ISR_TCIF1)
                DMA_CCR_TCIE 0 sample_redir)].
Proof.
  eexists. split; [vm_compute; reflexivity |].
  repeat split; try reflexivity.
  vm_compute. discriminate.
Qed.

(** The three ways through the dispatcher, with the accesses of each. *)
Lemma dmaServeInterrupt_cases (s : stm32_dma_stream_t) (m : machine)
  (e : dma_isr_redir_t) :
  nth_error (_stm32_dma_isr_redir m) (selfindex s) = Some e ->
  let rd := [Load (DMA_ISR (dma s)) (ISR (units m (dma s)));
             Load (CH_CCR (channel s)) (CCR (channels m (channel s)))] in
  let wr := Store (DMA_IFCR (dma s)) (at_offset s (status_flags s m)) in
  let cb := Callback (dma_func e) (dma_param e) (status_flags s m) in
  exists m' evs,
    dmaServeInterrupt s m = Done tt m'
    /\ trace m' = trace m ++ evs
    /\ ((enabled_flags s m = 0 /\ m' = observed s m /\ evs = rd)
        \/ (enabled_flags s m <> 0 /\ dma_func e = 0
            /\ m' = acknowledged s m /\ evs = rd ++ [wr])
        \/ (enabled_flags s m <> 0 /\ dma_func e <> 0
            /\ m' = log cb (acknowledged s m) /\ evs = rd ++ [wr; cb])).
Proof.
  intros He rd wr cb.
  destruct (Z.eq_dec (enabled_flags s m) 0) as [Hz | Hnz].
  - exists (observed s m), rd.
    split; [now apply dmaServeInterrupt_skip |].
    split; [apply trace_observed | left; auto].
  - destruct (Z.eq_dec (dma_func e) 0) as [Hf | Hf].
    + exists (acknowledged s m), (rd ++ [wr]).
      split; [now apply (dmaServeInterrupt_null s m e) |].
      split; [apply trace_acknowledged | right; left; auto].
    + exists (log cb (acknowledged s m)), (rd ++ [wr; cb]).
      split; [now apply (dmaServeInterrupt_call s m e) |].
      split; [| right; right; auto].
      cbn [trace log]. rewrite trace_acknowledged, <- app_assoc.
      reflexivity.
Qed.

Lemma status_flags_in_mask (s : stm32_dma_stream_t) (m : machine) :
  Z.land (status_flags s m) STM32_DMA_ISR_MASK = status_flags s m.
Proof.
  unfold status_flags. now rewrite <- Z.land_assoc, Z.land_diag.
Qed.

(** C2, as the code has it: the dispatcher calls the registered callback
    exactly when some observed status bit has its enable bit set and the
    callback is not null, and then the flags argument is every status bit
    observed under the mask 0x0E, aligned to bit zero, whether its own
    enable bit is set or not. *)
Theorem dmaServeInterrupt_callback_gets_observed
  (s : stm32_dma_stream_t) (m : machine) (e : dma_isr_redir_t) :
  nth_error (_stm32_dma_isr_redir m) (selfindex s) = Some e ->
  exists m' evs,
    dmaServeInterrupt s m = Done tt m'
    /\ trace m' = trace m ++ evs
    /\ callbacks_of evs =
       (if (enabled_flags s m =? 0) || (dma_func e =? 0) then []
        else [(dma_func e, dma_param e,
               Z.land (Z.shiftr (ISR (units m (dma s))) (shift s)) 0x0E)]).
Proof.
  intros He.
  destruct (dmaServeInterrupt_cases s m e He)
    as (m' & evs & Hrun & Htr & Hcase).
  exists m', evs. split; [exact Hrun |]. split; [exact Htr |].
  destruct Hcase as [(Hz & _ & ->) | [(Hnz & Hf & _ & ->) | (Hnz & Hf & _ & ->)]].
  - rewrite Hz. reflexivity.
  - rewrite Hf, orb_true_r. reflexivity.
  - destruct (Z.eqb_spec (enabled_flags s m) 0); [contradiction |].
    destruct (Z.eqb_spec (dma_func e) 0); [contradiction |].
    reflexivity.
Qed.

Lemma dmaServeInterrupt_callback_gets_observed_witness :
  exists m' evs,
    dmaServeInterrupt (sample_stream 1)
      (sample_machine 0xC5 0x4A 0 sample_redir) = Done tt m'
    /\ trace m' = [] ++ evs
    /\ callbacks_of evs = [(0x08002000, 0x20000100, 0x0C)].
Proof.
  apply (dmaServeInterrupt_callback_gets_observed (sample_stream 1)
           (sample_machine 0xC5 0x4A 0 sample_redir)
           (mkRedir 0x08002000 0x20000100)).
  reflexivity.
Defined.

(** C2, as stated, fails: with only transfer-complete enabled and both
    transfer-error and transfer-complete pending, the callback is called with
    flags 0x0A, which holds the transfer-error bit although its enable bit
    is clear in the control register. *)
Lemma dmaServeInterrupt_callback_gets_disabled_flag :
  exists m',
    dmaServeInterrupt (sample_stream 0)
      (sample_machine (Z.lor DMA_ISR_TEIF1 DMA_ISR_TCIF1) DMA_CCR_TCIE 0
         sample_redir) = Done tt m'
    /\ callbacks_of (trace m') = [(0x08001000, 0x20000000, 0x0A)]
    /\ Z.land 0x0A DMA_ISR_TEIF1 = DMA_ISR_TEIF1
    /\ Z.land (CCR (channels m' 0)) DMA_CCR_TEIE = 0
    /\ 0x0A <> DMA_ISR_TCIF1.
Proof.
  eexists. split; [vm_compute; reflexivity |].
  repeat split; try reflexivity. discriminate.
Qed.

(** C3: when the observed status bits, shifted and masked, ANDed with the
    raw control register are zero, the dispatcher only performs its two
    reads: nothing is written to the clear-flags register, no callback is
    called and the registers are untouched.  When the redirection entry
    holds a null callback, the dispatcher returns normally without calling
    anything. *)
Theorem dmaServeInterrupt_skips_silently
  (s : stm32_dma_stream_t) (m : machine) :
  (Z.land (Z.land (Z.shiftr (ISR (units m (dma s))) (shift s)) 0x0E)
          (CCR (channels m (channel s))) = 0 ->
   exists m',
     dmaServeInterrupt s m = Done tt m'
     /\ trace m' =
        trace m ++ [Load (DMA_ISR (dma s)) (ISR (units m (dma s)));
                    Load (CH_CCR (channel s)) (CCR (channels m (channel s)))]
     /\ units m' = units m
     /\ channels m' = channels m
     /\ _stm32_dma_isr_redir m' = _stm32_dma_isr_redir m)
  /\ (forall e,
        nth_error (_stm32_dma_isr_redir m) (selfindex s) = Some e ->
        dma_func e = 0 ->
        exists m' evs,
          dmaServeInterrupt s m = Done tt m'
          /\ trace m' = trace m ++ evs
          /\ callbacks_of evs = []).
Proof.
  split.
  - intros Hz. exists (observed s m).
    split; [now apply dmaServeInterrupt_skip |].
    split; [apply trace_observed |]. repeat split; reflexivity.
  - intros e He Hf.
    destruct (dmaServeInterrupt_cases s m e He)
      as (m' & evs & Hrun & Htr & Hcase).
    exists m', evs. split; [exact Hrun |]. split; [exact Htr |].
    destruct Hcase
      as [(_ & _ & ->) | [(_ & _ & _ & ->) | (_ & Hnf & _ & _)]];
      [reflexivity | reflexivity | contradiction].
Qed.

Lemma dmaServeInterrupt_skips_silently_witness :
  (exists m',
     dmaServeInterrupt (sample_stream 0)
       (sample_machine 0x08 0x4A3 0 sample_redir) = Done tt m'
     /\ trace m' = [] ++ [Load (DMA_ISR 0) 0x08; Load (CH_CCR 0) 0x4A3]
     /\ units m' = units (sample_machine 0x08 0x4A3 0 sample_redir)
     /\ channels m' = channels (sample_machine 0x08 0x4A3 0 sample_redir)
     /\ _stm32_dma_isr_redir m' = sample_redir)
  /\ (exists m' evs,
        dmaServeInterrupt (sample_stream 0)
          (sample_machine 0x02 0x03 0 [mkRedir 0 0]) = Done tt m'
        /\ trace m' = [] ++ evs
        /\ callbacks_of evs = []).
Proof.
  split.
  - apply (proj1 (dmaServeInterrupt_skips_silently (sample_stream 0)
                    (sample_machine 0x08 0x4A3 0 sample_redir))).
    reflexivity.
  - apply (proj2 (dmaServeInterrupt_skips_silently (sample_stream 0)
                    (sample_machine 0x02 0x03 0 [mkRedir 0 0]))
             (mkRedir 0 0)); reflexivity.
Defined.

(** A set bit of [flags << shift] lies in the stream's three-bit window. *)
Lemma at_offset_window (s : stm32_dma_stream_t) (m : machine) (i : Z) :
  Z.testbit (at_offset s (status_flags s m)) i = true ->
  shift s + 1 <= i <= shift s + 3.
Proof.
  unfold at_offset, status_flags. intros Hbit.
  destruct (Z.ltb_spec i 0) as [Hneg | Hi];
    [rewrite Z.testbit_neg_r in Hbit by exact Hneg; discriminate |].
  revert Hbit. bits i Hi. intros Hbit.
  apply andb_true_iff in Hbit. destruct Hbit as [_ Hbit].
  apply andb_true_iff in Hbit. destruct Hbit as [_ Hbit].
  apply andb_true_iff in Hbit. destruct Hbit as [Hlo Hhi].
  apply Z.leb_le in Hlo, Hhi. lia.
Qed.

Lemma at_offset_outside_mask (s : stm32_dma_stream_t) (m : machine) :
  Z.land (at_offset s (status_flags s m))
         (Z.lnot (Z.shiftl STM32_DMA_ISR_MASK (shift s))) = 0.
Proof.
  apply Z.bits_inj'. intros i Hi.
  rewrite Z.land_spec, Z.bits_0, Z.lnot_spec, Z.shiftl_spec by exact Hi.
  rewrite mask_testbit.
  destruct (Z.testbit (at_offset s (status_flags s m)) i) eqn:Hbit;
    [| reflexivity].
  apply at_offset_window in Hbit.
  destruct (Z.leb_spec 1 (i - shift s)); [| lia].
  destruct (Z.leb_spec (i - shift s) 3); [| lia].
  reflexivity.
Qed.

(** C10: every value the dispatcher writes to the shared clear-flags
    register has its set bits among positions shift+1 to shift+3 of the
    dispatched stream, so it is zero outside [0x0E << shift] and never holds
    the global-flag bit at position shift; the clear-flags register is the
    only register written; in the status register every bit outside that
    window, hence every flag of another stream, is left as it was. *)
Theorem dmaServeInterrupt_writes_inside_window
  (s : stm32_dma_stream_t) (m : machine) :
  (selfindex s < length (_stm32_dma_isr_redir m))%nat ->
  exists m' evs,
    dmaServeInterrupt s m = Done tt m'
    /\ trace m' = trace m ++ evs
    /\ (forall w, In w (stores_to (DMA_IFCR (dma s)) evs) ->
          Z.land w (Z.lnot (Z.shiftl 0x0E (shift s))) = 0
          /\ Z.testbit w (shift s) = false
          /\ forall i, Z.testbit w i = true ->
                       shift s + 1 <= i <= shift s + 3)
    /\ (forall r v, In (Store r v) evs -> r = DMA_IFCR (dma s))
    /\ (forall i, 0 <= i -> ~ (shift s + 1 <= i <= shift s + 3) ->
          Z.testbit (ISR (units m' (dma s))) i
          = Z.testbit (ISR (units m (dma s))) i)
    /\ (forall d, d <> dma s -> units m' d = units m d).
Proof.
  intros Hidx.
  destruct (nth_error (_stm32_dma_isr_redir m) (selfindex s)) as [e |] eqn:He;
    [| apply nth_error_None in He; lia].
  destruct (dmaServeInterrupt_cases s m e He)
    as (m' & evs & Hrun & Htr & Hcase).
  exists m', evs. split; [exact Hrun |]. split; [exact Htr |].
  assert (Hw : forall w, w = at_offset s (status_flags s m) ->
                 Z.land w (Z.lnot (Z.shiftl 0x0E (shift s))) = 0
                 /\ Z.testbit w (shift s) = false
                 /\ forall i, Z.testbit w i = true ->
                              shift s + 1 <= i <= shift s + 3).
  { intros w ->. split; [apply at_offset_outside_mask |]. split.
    - destruct (Z.testbit _ (shift s)) eqn:Hbit; [| reflexivity].
      apply at_offset_window in Hbit. lia.
    - intros i. apply at_offset_window. }
  assert (Hisr : forall i, 0 <= i -> ~ (shift s + 1 <= i <= shift s + 3) ->
                   Z.testbit (ISR (units (acknowledged s m) (dma s))) i
                   = Z.testbit (ISR (units m (dma s))) i).
  { intros i Hi Hout. cbn [units acknowledged log poke observed].
    rewrite upd_same. cbn [ISR]. rewrite Z.ldiff_spec.
    destruct (Z.testbit (at_offset s (status_flags s m)) i) eqn:Hbit.
    - apply at_offset_window in Hbit. contradiction.
    - apply andb_true_r. }
  assert (Hother : forall d, d <> dma s ->
                     units (acknowledged s m) d = units m d).
  { intros d Hd. cbn [units acknowledged log poke observed].
    now apply upd_other. }
  destruct Hcase
    as [(_ & -> & ->) | [(_ & _ & -> & ->) | (_ & _ & -> & ->)]].
  - split; [intros w [] |].
    split; [intros r v [Hin | [Hin | []]]; discriminate |].
    split; reflexivity.
  - split.
    { cbn. rewrite Nat.eqb_refl. intros w [<- | []]. now apply Hw. }
    split.
    { intros r v [Hin | [Hin | [Hin | []]]]; try discriminate.
      now injection Hin as <- _. }
    split; [exact Hisr | exact Hother].
  - split.
    { cbn. rewrite Nat.eqb_refl. intros w [<- | []]. now apply Hw. }
    split.
    { intros r v [Hin | [Hin | [Hin | [Hin | []]]]]; try discriminate.
      now injection Hin as <- _. }
    split; [exact Hisr | exact Hother].
Qed.

Lemma dmaServeInterrupt_writes_inside_window_witness :
  exists m' evs,
    dmaServeInterrupt (sample_stream 1)
      (sample_machine 0xFFFFFFFF 0x0F 0 sample_redir) = Done tt m'
    /\ trace m' = [] ++ evs
    /\ (forall w, In w (stores_to (DMA_IFCR 0) evs) ->
          Z.land w (Z.lnot (Z.shiftl 0x0E 4)) = 0
          /\ Z.testbit w 4 = false
          /\ forall i, Z.testbit w i = true -> 4 + 1 <= i <= 4 + 3)
    /\ (forall r v, In (Store r v) evs -> r = DMA_IFCR 0)
    /\ (forall i, 0 <= i -> ~ (4 + 1 <= i <= 4 + 3) ->
          Z.testbit (ISR (units m' 0)) i = Z.testbit 0xFFFFFFFF i)
    /\ (forall d, d <> 0%nat -> units m' d = mkDMA 0xFFFFFFFF).
Proof.
  apply (dmaServeInterrupt_writes_inside_window (sample_stream 1)
           (sample_machine 0xFFFFFFFF 0x0F 0 sample_redir)).
  simpl. lia.
Defined.

Example serve_interrupt_all_pending :
  match dmaServeInterrupt (sample_stream 1)
          (sample_machine 0xFFFFFFFF 0x0F 0 sample_redir) with
  | Done _ m' => (stores_to (DMA_IFCR 0) (trace m'), ISR (units m' 0))
  | Stuck _ => ([], 0)
  end = ([0xE0], 0xFFFFFF1F).
Proof. vm_compute. reflexivity. Qed.

(* ===================================================================== *)
(** ** Priorities *)
(* ===================================================================== *)

Lemma u32_negative (p : Z) : - 2 ^ 31 <= p < 0 -> u32 p = p + 2 ^ 32.
Proof.
  intros Hp. unfold u32. symmetry.
  apply Z.mod_unique with (q := -1); lia.
Qed.

(** C8: for every priority a 32-bit integer type can hold, signed or
    unsigned, [STM32_DMA_IS_VALID_PRIORITY] is true exactly for 0, 1, 2 and
    3; with any other priority the allocator fails with
    [InvalidPriority]. *)
Theorem STM32_DMA_IS_VALID_PRIORITY_iff (p : Z) :
  - 2 ^ 31 <= p < 2 ^ 32 ->
  (STM32_DMA_IS_VALID_PRIORITY p = true <-> 0 <= p <= 3)
  /\ (~ (0 <= p <= 3) ->
      STM32_DMA_IS_VALID_PRIORITY p = false
      /\ forall table func param m,
           dmaStreamAllocate table p func param m = inl InvalidPriority).
Proof.
  intros Hp.
  assert (Hiff : STM32_DMA_IS_VALID_PRIORITY p = true <-> 0 <= p <= 3).
  { unfold STM32_DMA_IS_VALID_PRIORITY.
    rewrite andb_true_iff, Z.geb_le, Z.leb_le.
    destruct (Z_lt_ge_dec p 0) as [Hneg | Hpos].
    - rewrite u32_negative by lia. lia.
    - rewrite u32_small by (unfold is_u32; lia). lia. }
  split; [exact Hiff |].
  intros Hout.
  assert (Hfalse : STM32_DMA_IS_VALID_PRIORITY p = false).
  { destruct (STM32_DMA_IS_VALID_PRIORITY p); [| reflexivity].
    exfalso. apply Hout, Hiff. reflexivity. }
  split; [exact Hfalse |].
  intros table func param m. unfold dmaStreamAllocate.
  now rewrite Hfalse.
Qed.

Lemma STM32_DMA_IS_VALID_PRIORITY_iff_witness :
  (STM32_DMA_IS_VALID_PRIORITY 4 = true <-> 0 <= 4 <= 3)
  /\ (~ (0 <= 4 <= 3) ->
      STM32_DMA_IS_VALID_PRIORITY 4 = false
      /\ forall table func param m,
           dmaStreamAllocate table 4 func param m = inl InvalidPriority).
Proof.
  apply (STM32_DMA_IS_VALID_PRIORITY_iff 4). lia.
Defined.

Example valid_priorities :
  map STM32_DMA_IS_VALID_PRIORITY [-1; 0; 1; 2; 3; 4; 0xFFFFFFFF]
  = [false; true; true; true; true; false; false].
Proof. reflexivity. Qed.

(* ===================================================================== *)
(** ** The panic and restart hooks *)
(* ===================================================================== *)

(** C9, as the code has it: [CFE_PSP_Panic] hands its code, uninterpreted,
    to [chSysHalt] and never returns, for every error code;
    [CFE_PSP_Restart] is not implemented: it ignores its reset type and
    returns to its caller at once, for every reset type. *)
Theorem CFE_PSP_Panic_halts_Restart_returns :
  (forall ErrorCode,
     CFE_PSP.CFE_PSP_Panic ErrorCode = CFE_PSP.Halts (u32 ErrorCode))
  /\ (forall reset_type,
        CFE_PSP.CFE_PSP_Restart reset_type = CFE_PSP.Returns)
  /\ (forall a b, CFE_PSP.CFE_PSP_Restart a = CFE_PSP.CFE_PSP_Restart b).
Proof. repeat split. Qed.

(** C9, as stated, fails: [CFE_PSP_Restart] returns. *)
Lemma CFE_PSP_Restart_returns :
  CFE_PSP.CFE_PSP_Restart 0 = CFE_PSP.Returns
  /\ ~ exists reason, CFE_PSP.CFE_PSP_Restart 0 = CFE_PSP.Halts reason.
Proof.
  split; [reflexivity |]. intros [reason H]. discriminate H.
Qed.

(* ===================================================================== *)
(** ** Further properties: constants and fields *)
(* ===================================================================== *)

(** X1: for the stream numbers 1 to 8, [STM32_DMA_ISR_SHIFT] is four times
    the stream number less one, the four-bit nibble at that offset fits in
    the 32-bit status register, and two different streams get nibbles with
    no bit in common. *)
Theorem STM32_DMA_ISR_SHIFT_disjoint_nibbles (a b : Z) :
  1 <= a <= 8 -> 1 <= b <= 8 ->
  STM32_DMA_ISR_SHIFT a = 4 * (a - 1)
  /\ 0 <= STM32_DMA_ISR_SHIFT a
  /\ STM32_DMA_ISR_SHIFT a + 4 <= 32
  /\ (a <> b ->
      Z.land (Z.shiftl 0x0F (STM32_DMA_ISR_SHIFT a))
             (Z.shiftl 0x0F (STM32_DMA_ISR_SHIFT b)) = 0).
Proof.
  intros Ha Hb.
  assert (Ea : a = 1 \/ a = 2 \/ a = 3 \/ a = 4 \/
               a = 5 \/ a = 6 \/ a = 7 \/ a = 8) by lia.
  assert (Eb : b = 1 \/ b = 2 \/ b = 3 \/ b = 4 \/
               b = 5 \/ b = 6 \/ b = 7 \/ b = 8) by lia.
  repeat split.
  - destruct Ea as [-> | [-> | [-> | [-> | [-> | [-> | [-> | ->]]]]]]];
      reflexivity.
  - unfold STM32_DMA_ISR_SHIFT, u32. apply Z.mod_pos_bound. lia.
  - destruct Ea as [-> | [-> | [-> | [-> | [-> | [-> | [-> | ->]]]]]]];
      vm_compute; discriminate.
  - intros Hab.
    destruct Ea as [-> | [-> | [-> | [-> | [-> | [-> | [-> | ->]]]]]]];
      destruct Eb as [-> | [-> | [-> | [-> | [-> | [-> | [-> | ->]]]]]]];
      try reflexivity; contradiction.
Qed.

Lemma STM32_DMA_ISR_SHIFT_disjoint_nibbles_witness :
  STM32_DMA_ISR_SHIFT 3 = 4 * (3 - 1)
  /\ 0 <= STM32_DMA_ISR_SHIFT 3
  /\ STM32_DMA_ISR_SHIFT 3 + 4 <= 32
  /\ (3 <> 8 ->
      Z.land (Z.shiftl 0x0F (STM32_DMA_ISR_SHIFT 3))
             (Z.shiftl 0x0F (STM32_DMA_ISR_SHIFT 8)) = 0).
Proof.
  apply (STM32_DMA_ISR_SHIFT_disjoint_nibbles 3 8); lia.
Defined.

Lemma valid_priority_cases (p : Z) :
  is_u32 p -> STM32_DMA_IS_VALID_PRIORITY p = true ->
  p = 0 \/ p = 1 \/ p = 2 \/ p = 3.
Proof.
  intros Hp Hv. unfold STM32_DMA_IS_VALID_PRIORITY in Hv.
  rewrite (u32_small p Hp) in Hv.
  apply andb_true_iff in Hv. destruct Hv as [Hlo Hhi].
  apply Z.geb_le in Hlo. apply Z.leb_le in Hhi. lia.
Qed.

(** X2: a valid priority, put in place by [STM32_DMA_CR_PL], occupies bits
    12 and 13 only and is read back by shifting right by 12; a priority
    that is not valid (below 2^20) sets a bit outside these two. *)
Theorem STM32_DMA_CR_PL_field (p : Z) :
  is_u32 p ->
  (STM32_DMA_IS_VALID_PRIORITY p = true ->
   STM32_DMA_CR_PL p = p * 4096
   /\ Z.land (STM32_DMA_CR_PL p) (Z.lnot 0x3000) = 0
   /\ Z.shiftr (STM32_DMA_CR_PL p) 12 = p)
  /\ (STM32_DMA_IS_VALID_PRIORITY p = false -> p < 2 ^ 20 ->
      Z.land (STM32_DMA_CR_PL p) (Z.lnot 0x3000) <> 0).
Proof.
  intros Hp. split.
  - intros Hv.
    destruct (valid_priority_cases p Hp Hv) as [-> | [-> | [-> | ->]]];
      repeat split; reflexivity.
  - intros Hv Hsmall Hzero.
    assert (H4 : 4 <= p).
    { unfold STM32_DMA_IS_VALID_PRIORITY in Hv.
      rewrite (u32_small p Hp) in Hv.
      apply andb_false_iff in Hv. unfold is_u32 in Hp.
      destruct Hv as [Hv | Hv].
      - rewrite Z.geb_leb in Hv. apply Z.leb_gt in Hv. lia.
      - apply Z.leb_gt in Hv. lia. }
    assert (Hlog : 2 <= Z.log2 p < 20).
    { split.
      - change 2 with (Z.log2 4). apply Z.log2_le_mono. exact H4.
      - apply Z.log2_lt_pow2; lia. }
    assert (Hbit : Z.testbit (Z.land (STM32_DMA_CR_PL p) (Z.lnot 0x3000))
                             (Z.log2 p + 12) = true).
    { unfold STM32_DMA_CR_PL.
      rewrite Z.land_spec, u32_testbit, Z.shiftl_spec, Z.lnot_spec by lia.
      replace (Z.log2 p + 12 - 12) with (Z.log2 p) by lia.
      rewrite Z.bit_log2 by lia.
      rewrite (Z.bits_above_log2 0x3000) by (cbn; lia).
      destruct (Z.ltb_spec (Z.log2 p + 12) 32); [reflexivity | lia]. }
    rewrite Hzero, Z.bits_0 in Hbit. discriminate.
Qed.

Lemma STM32_DMA_CR_PL_field_witness :
  (STM32_DMA_IS_VALID_PRIORITY 2 = true ->
   STM32_DMA_CR_PL 2 = 2 * 4096
   /\ Z.land (STM32_DMA_CR_PL 2) (Z.lnot 0x3000) = 0
   /\ Z.shiftr (STM32_DMA_CR_PL 2) 12 = 2)
  /\ (STM32_DMA_IS_VALID_PRIORITY 2 = false -> 2 < 2 ^ 20 ->
      Z.land (STM32_DMA_CR_PL 2) (Z.lnot 0x3000) <> 0).
Proof.
  apply (STM32_DMA_CR_PL_field 2). unfold is_u32. lia.
Defined.

Example priority_4_spills :
  STM32_DMA_CR_PL 4 = DMA_CCR_MEM2MEM.
Proof. reflexivity. Qed.

(* ===================================================================== *)
(** ** Further properties: programming a channel *)
(* ===================================================================== *)

Section Programming.

Context {hdr : device_header}.

(** What [dmaStreamEnable] does, access by access. *)
Lemma dmaStreamEnable_run (s : stm32_dma_stream_t) (m : machine) :
  let ch := channels m (channel s) in
  dmaStreamEnable s m =
  Done tt
    (mkMachine
       (units m)
       (upd (channels m) (channel s)
            (mkChannel (Z.lor (CCR ch) STM32_DMA_CR_EN) (CNDTR ch) (CPAR ch)
                       (CMAR ch)))
       (_stm32_dma_isr_redir m)
       ((trace m ++ [Load (CH_CCR (channel s)) (CCR ch)])
          ++ [Store (CH_CCR (channel s)) (Z.lor (CCR ch) STM32_DMA_CR_EN)])).
Proof. reflexivity. Qed.

(** X3: [dmaStreamEnable] reads the control register once and writes it
    once; afterwards the enable bit is set and every bit that is not part
    of the enable constant is as before; the count and address registers,
    the other channels and the status registers are untouched. *)
Theorem dmaStreamEnable_sets_only_enable
  (s : stm32_dma_stream_t) (m : machine) :
  exists m',
    dmaStreamEnable s m = Done tt m'
    /\ trace m' =
       trace m ++
         [Load (CH_CCR (channel s)) (CCR (channels m (channel s)));
          Store (CH_CCR (channel s))
                (Z.lor (CCR (channels m (channel s))) STM32_DMA_CR_EN)]
    /\ Z.land (CCR (channels m' (channel s))) STM32_DMA_CR_EN
       = STM32_DMA_CR_EN
    /\ (forall i, Z.testbit STM32_DMA_CR_EN i = false ->
          Z.testbit (CCR (channels m' (channel s))) i
          = Z.testbit (CCR (channels m (channel s))) i)
    /\ CNDTR (channels m' (channel s)) = CNDTR (channels m (channel s))
    /\ CPAR (channels m' (channel s)) = CPAR (channels m (channel s))
    /\ CMAR (channels m' (channel s)) = CMAR (channels m (channel s))
    /\ (forall c, c <> channel s -> channels m' c = channels m c)
    /\ units m' = units m.
Proof.
  eexists. split; [apply dmaStreamEnable_run |].
  cbn [trace channels units]. rewrite !upd_same. cbn [CCR CNDTR CPAR CMAR].
  split; [now rewrite <- app_assoc |].
  split; [apply land_lor_absorb |].
  split.
  { intros i Hbit.
    destruct (Z.ltb_spec i 0) as [Hneg | Hpos];
      [now rewrite !Z.testbit_neg_r by exact Hneg |].
    rewrite Z.lor_spec, Hbit. apply orb_false_r. }
  repeat split. intros c Hc. now apply upd_other.
Qed.

Lemma lor_then_disable (x : Z) :
  Z.land (Z.lor x STM32_DMA_CR_EN) disable_mask = Z.land x disable_mask.
Proof.
  rewrite Z.land_lor_distr_l.
  replace (Z.land STM32_DMA_CR_EN disable_mask) with 0;
    [apply Z.lor_0_r |].
  symmetry. unfold disable_mask. rewrite Z.land_comm.
  apply Z.bits_inj'. intros i Hi.
  rewrite Z.land_spec, u32_testbit, Z.lnot_spec, !Z.lor_spec, Z.bits_0
    by exact Hi.
  now destruct (i <? 32), (Z.testbit STM32_DMA_CR_TCIE i),
    (Z.testbit STM32_DMA_CR_HTIE i), (Z.testbit STM32_DMA_CR_TEIE i),
    (Z.testbit STM32_DMA_CR_EN i).
Qed.

(** X4: enabling a stream and then disabling it leaves the control
    register exactly as disabling alone would: nothing of the enable
    survives, whatever the control register held. *)
Theorem dmaStreamEnable_then_Disable
  (s : stm32_dma_stream_t) (m : machine) :
  exists m1 m2 m3,
    dmaStreamEnable s m = Done tt m1
    /\ dmaStreamDisable s m1 = Done tt m2
    /\ dmaStreamDisable s m = Done tt m3
    /\ channels m2 (channel s) = channels m3 (channel s)
    /\ units m2 = units m3
    /\ Z.land (CCR (channels m2 (channel s))) STM32_DMA_CR_EN = 0.
Proof.
  eexists _, _, _.
  split; [apply dmaStreamEnable_run |].
  split; [apply dmaStreamDisable_run |].
  split; [apply dmaStreamDisable_run |].
  cbn [channels units]. rewrite !upd_same. cbn [CCR CNDTR CPAR CMAR].
  rewrite lor_then_disable.
  split; [reflexivity |]. split; [reflexivity |].
  apply disable_clears. auto.
Qed.

Lemma land_lor_disjoint (x e b : Z) :
  Z.land x b = 0 -> Z.land b e = 0 -> Z.land (Z.lor x e) b = 0.
Proof.
  intros Hx He.
  rewrite Z.land_lor_distr_l, Hx, (Z.land_comm e b), He. reflexivity.
Qed.

(** X5: disabling is not undone by enabling.  When the three
    interrupt-enable bits are distinct from the enable bit, a stream that is
    disabled and then enabled again has its enable bit set and its three
    interrupt-enable bits clear, whatever they were before. *)
Theorem dmaStreamDisable_then_Enable
  (s : stm32_dma_stream_t) (m : machine) :
  Z.land STM32_DMA_CR_TCIE STM32_DMA_CR_EN = 0 ->
  Z.land STM32_DMA_CR_HTIE STM32_DMA_CR_EN = 0 ->
  Z.land STM32_DMA_CR_TEIE STM32_DMA_CR_EN = 0 ->
  exists m1 m2,
    dmaStreamDisable s m = Done tt m1
    /\ dmaStreamEnable s m1 = Done tt m2
    /\ Z.land (CCR (channels m2 (channel s))) STM32_DMA_CR_EN
       = STM32_DMA_CR_EN
    /\ Z.land (CCR (channels m2 (channel s))) STM32_DMA_CR_TCIE = 0
    /\ Z.land (CCR (channels m2 (channel s))) STM32_DMA_CR_HTIE = 0
    /\ Z.land (CCR (channels m2 (channel s))) STM32_DMA_CR_TEIE = 0.
Proof.
  intros Htc Hht Hte. eexists _, _.
  split; [apply dmaStreamDisable_run |].
  split; [apply dmaStreamEnable_run |].
  cbn [channels]. rewrite !upd_same. cbn [CCR].
  split; [apply land_lor_absorb |].
  split; [apply land_lor_disjoint; [apply disable_clears; auto | exact Htc] |].
  split; [apply land_lor_disjoint; [apply disable_clears; auto | exact Hht] |].
  apply land_lor_disjoint; [apply disable_clears; auto | exact Hte].
Qed.

(** X6: the transaction count that was set is the count that is read back,
    reduced modulo 2^32; setting it changes no other register of the
    channel, and a stream on another channel reads its own count as
    before. *)
Theorem dmaStreamSetTransactionSize_then_Get
  (s : stm32_dma_stream_t) (n : Z) (m : machine) :
  exists m1 m2,
    dmaStreamSetTransactionSize s n m = Done tt m1
    /\ dmaStreamGetTransactionSize s m1 = Done (n mod 2 ^ 32) m2
    /\ (0 <= n < 2 ^ 32 ->
        dmaStreamGetTransactionSize s m1 = Done n m2)
    /\ CCR (channels m1 (channel s)) = CCR (channels m (channel s))
    /\ CPAR (channels m1 (channel s)) = CPAR (channels m (channel s))
    /\ CMAR (channels m1 (channel s)) = CMAR (channels m (channel s))
    /\ (forall s2, channel s2 <> channel s ->
          exists m3,
            dmaStreamGetTransactionSize s2 m1
            = Done (CNDTR (channels m (channel s2))) m3).
Proof.
  eexists _, _. split; [reflexivity |].
  unfold dmaStreamGetTransactionSize, load.
  cbn [peek channels log poke]. rewrite !upd_same. cbn [CCR CNDTR CPAR CMAR].
  split; [reflexivity |].
  split.
  { intros Hn. fold (u32 n). now rewrite (u32_small n Hn). }
  repeat split.
  intros s2 Hs2. eexists. rewrite upd_other by exact Hs2. reflexivity.
Qed.

(** X7: [dmaStartMemCopy] programs its own channel only, with each argument
    reduced modulo 2^32: the status registers, the redirection table and
    every other channel are as before, and so are the status flags any
    stream shows. *)
Theorem dmaStartMemCopy_frame
  (s : stm32_dma_stream_t) (mode src dst n : Z) (m : machine) :
  exists m',
    dmaStartMemCopy s mode src dst n m = Done tt m'
    /\ channels m' (channel s) =
       mkChannel
         (u32 (Z.lor (Z.lor (Z.lor (Z.lor mode STM32_DMA_CR_MINC)
                                   STM32_DMA_CR_PINC)
                            STM32_DMA_CR_DIR_M2M)
                     STM32_DMA_CR_EN))
         (u32 n) (u32 src) (u32 dst)
    /\ (forall c, c <> channel s -> channels m' c = channels m c)
    /\ units m' = units m
    /\ _stm32_dma_isr_redir m' = _stm32_dma_isr_redir m
    /\ (forall s2, status_flags s2 m' = status_flags s2 m).
Proof.
  eexists. split; [reflexivity |].
  cbn [channels units _stm32_dma_isr_redir log poke].
  split; [now rewrite !upd_same |].
  split; [| repeat split].
  intros c Hc. now rewrite !upd_other by exact Hc.
Qed.

End Programming.

Lemma dmaStreamDisable_then_Enable_witness :
  exists m1 m2,
    dmaStreamDisable (sample_stream 0)
      (sample_machine 0x0A 0x40CF 9 sample_redir) = Done tt m1
    /\ dmaStreamEnable (sample_stream 0) m1 = Done tt m2
    /\ Z.land (CCR (channels m2 0)) STM32_DMA_CR_EN = STM32_DMA_CR_EN
    /\ Z.land (CCR (channels m2 0)) STM32_DMA_CR_TCIE = 0
    /\ Z.land (CCR (channels m2 0)) STM32_DMA_CR_HTIE = 0
    /\ Z.land (CCR (channels m2 0)) STM32_DMA_CR_TEIE = 0.
Proof.
  apply (dmaStreamDisable_then_Enable (hdr := stm32_cmsis) (sample_stream 0)
           (sample_machine 0x0A 0x40CF 9 sample_redir)); reflexivity.
Defined.

Lemma dmaStreamSetTransactionSize_then_Get_witness :
  exists m1 m2,
    dmaStreamSetTransactionSize (sample_stream 0) 100
      (sample_machine 0 0 7 sample_redir) = Done tt m1
    /\ dmaStreamGetTransactionSize (sample_stream 0) m1
       = Done (100 mod 2 ^ 32) m2
    /\ (0 <= 100 < 2 ^ 32 ->
        dmaStreamGetTransactionSize (sample_stream 0) m1 = Done 100 m2)
    /\ CCR (channels m1 0) = 0
    /\ CPAR (channels m1 0) = 0
    /\ CMAR (channels m1 0) = 0
    /\ (forall s2, channel s2 <> 0%nat ->
          exists m3,
            dmaStreamGetTransactionSize s2 m1 = Done 7 m3).
Proof.
  exact (dmaStreamSetTransactionSize_then_Get (sample_stream 0) 100
           (sample_machine 0 0 7 sample_redir)).
Defined.

Example transaction_size_wraps :
  match (dmaStreamSetTransactionSize (sample_stream 0) (2 ^ 32 + 5) ;;
         dmaStreamGetTransactionSize (sample_stream 0))
          (sample_machine 0 0 7 sample_redir) with
  | Done n _ => n
  | Stuck _ => -1
  end = 5.
Proof. reflexivity. Qed.

(* ===================================================================== *)
(** ** Further properties: status flags and streams sharing a register *)
(* ===================================================================== *)

(** A set bit of a masked value shifted to the stream's offset lies in the
    stream's three-bit window. *)
Lemma at_offset_masked_window (s : stm32_dma_stream_t) (f i : Z) :
  Z.testbit (at_offset s (Z.land f STM32_DMA_ISR_MASK)) i = true ->
  shift s + 1 <= i <= shift s + 3.
Proof.
  unfold at_offset. intros Hbit.
  destruct (Z.ltb_spec i 0) as [Hneg | Hi];
    [rewrite Z.testbit_neg_r in Hbit by exact Hneg; discriminate |].
  revert Hbit. bits i Hi. intros Hbit.
  apply andb_true_iff in Hbit. destruct Hbit as [_ Hbit].
  apply andb_true_iff in Hbit. destruct Hbit as [_ Hbit].
  apply andb_true_iff in Hbit. destruct Hbit as [Hlo Hhi].
  apply Z.leb_le in Hlo, Hhi. lia.
Qed.

Lemma at_offset_mask_window (s : stm32_dma_stream_t) (i : Z) :
  Z.testbit (at_offset s STM32_DMA_ISR_MASK) i = true ->
  shift s + 1 <= i <= shift s + 3.
Proof.
  intros Hbit. apply (at_offset_masked_window s STM32_DMA_ISR_MASK).
  now rewrite Z.land_diag.
Qed.

(** Two status words that agree on a stream's window show the same flags. *)
Lemma status_flags_agree (s2 : stm32_dma_stream_t) (isr isr' : Z) :
  (forall i, shift s2 + 1 <= i <= shift s2 + 3 ->
             Z.testbit isr' i = Z.testbit isr i) ->
  Z.land (Z.shiftr isr' (shift s2)) STM32_DMA_ISR_MASK
  = Z.land (Z.shiftr isr (shift s2)) STM32_DMA_ISR_MASK.
Proof.
  intros Hagree. apply Z.bits_inj'. intros i Hi. bits i Hi.
  destruct (Z.leb_spec 1 i); cbn [andb]; [| now rewrite !andb_false_r].
  destruct (Z.leb_spec i 3); cbn [andb]; [| now rewrite !andb_false_r].
  rewrite Hagree by lia. reflexivity.
Qed.

(** Acknowledging bits of one stream's window leaves the flags of a stream
    on another controller, or at a nibble apart, as they were. *)
Lemma status_flags_after_w1c (s s2 : stm32_dma_stream_t) (w : Z)
  (m m' : machine) :
  units m' = upd (units m) (dma s)
                 (mkDMA (Z.ldiff (ISR (units m (dma s))) w)) ->
  (forall i, Z.testbit w i = true -> shift s + 1 <= i <= shift s + 3) ->
  dma s2 <> dma s \/ shift s2 + 4 <= shift s \/ shift s + 4 <= shift s2 ->
  status_flags s2 m' = status_flags s2 m.
Proof.
  intros Hunits Hw Hapart. unfold status_flags. rewrite Hunits.
  destruct (Nat.eq_dec (dma s2) (dma s)) as [Heq | Hneq];
    [| now rewrite upd_other].
  rewrite Heq, upd_same. cbn [ISR].
  apply status_flags_agree. intros i Hi. rewrite Z.ldiff_spec.
  destruct (Z.testbit w i) eqn:Hbit; [| apply andb_true_r].
  apply Hw in Hbit. destruct Hapart as [Hd | Hsh]; [contradiction | lia].
Qed.

(** X8: [dmaStreamClearInterrupt] leaves no status flag of its own stream
    pending, changes no bit of the status register outside the stream's
    three flag positions, and so leaves the flags of every stream on another
    controller or at another nibble as they were. *)
Theorem dmaStreamClearInterrupt_clears_own_flags_only
  (s : stm32_dma_stream_t) (m : machine) :
  stream_ok s ->
  exists m',
    dmaStreamClearInterrupt s m = Done tt m'
    /\ status_flags s m' = 0
    /\ (forall i, ~ (shift s + 1 <= i <= shift s + 3) ->
          Z.testbit (ISR (units m' (dma s))) i
          = Z.testbit (ISR (units m (dma s))) i)
    /\ (forall s2,
          dma s2 <> dma s \/ shift s2 + 4 <= shift s
          \/ shift s + 4 <= shift s2 ->
          status_flags s2 m' = status_flags s2 m).
Proof.
  intros Hok. eexists. split; [reflexivity |].
  split.
  { unfold status_flags. cbn [units log poke]. rewrite upd_same. cbn [ISR].
    now apply status_flags_after_clear. }
  split.
  { intros i Hout. cbn [units log poke]. rewrite upd_same. cbn [ISR].
    rewrite Z.ldiff_spec.
    destruct (Z.testbit _ i) eqn:Hbit in |- * at 2; [| apply andb_true_r].
    apply at_offset_mask_window in Hbit. contradiction. }
  intros s2 Hapart.
  apply (status_flags_after_w1c s s2 (at_offset s STM32_DMA_ISR_MASK));
    [reflexivity | apply at_offset_mask_window | exact Hapart].
Qed.

Lemma dmaStreamClearInterrupt_clears_own_flags_only_witness :
  exists m',
    dmaStreamClearInterrupt (sample_stream 1)
      (sample_machine 0xFFFFFFFF 0 0 sample_redir) = Done tt m'
    /\ status_flags (sample_stream 1) m' = 0
    /\ (forall i, ~ (4 + 1 <= i <= 4 + 3) ->
          Z.testbit (ISR (units m' 0)) i = Z.testbit 0xFFFFFFFF i)
    /\ (forall s2,
          dma s2 <> 0%nat \/ shift s2 + 4 <= 4 \/ 4 + 4 <= shift s2 ->
          status_flags s2 m'
          = status_flags s2 (sample_machine 0xFFFFFFFF 0 0 sample_redir)).
Proof.
  apply (dmaStreamClearInterrupt_clears_own_flags_only (sample_stream 1)
           (sample_machine 0xFFFFFFFF 0 0 sample_redir)).
  unfold stream_ok. simpl. lia.
Defined.

Section Sharing.

Context {hdr : device_header}.

(** X9: [dmaStreamDisable] keeps the rest of the configuration: every bit
    of the 32-bit control word that belongs to none of the four constants it
    clears is as before, the count and address registers are untouched, and
    so are the other channels and the flags of every stream on another
    controller or at another nibble. *)
Theorem dmaStreamDisable_keeps_configuration
  (s : stm32_dma_stream_t) (m : machine) :
  exists m',
    dmaStreamDisable s m = Done tt m'
    /\ (forall i, 0 <= i < 32 ->
          Z.testbit STM32_DMA_CR_TCIE i = false ->
          Z.testbit STM32_DMA_CR_HTIE i = false ->
          Z.testbit STM32_DMA_CR_TEIE i = false ->
          Z.testbit STM32_DMA_CR_EN i = false ->
          Z.testbit (CCR (channels m' (channel s))) i
          = Z.testbit (CCR (channels m (channel s))) i)
    /\ CNDTR (channels m' (channel s)) = CNDTR (channels m (channel s))
    /\ CPAR (channels m' (channel s)) = CPAR (channels m (channel s))
    /\ CMAR (channels m' (channel s)) = CMAR (channels m (channel s))
    /\ (forall c, c <> channel s -> channels m' c = channels m c)
    /\ (forall s2,
          dma s2 <> dma s \/ shift s2 + 4 <= shift s
          \/ shift s + 4 <= shift s2 ->
          status_flags s2 m' = status_flags s2 m).
Proof.
  eexists. split; [apply dmaStreamDisable_run |].
  cbn [channels]. rewrite !upd_same. cbn [CCR CNDTR CPAR CMAR].
  split.
  { intros i [Hi Hi32] Htc Hht Hte Hen. unfold disable_mask.
    rewrite Z.land_spec, u32_testbit, Z.lnot_spec, !Z.lor_spec by exact Hi.
    rewrite Htc, Hht, Hte, Hen.
    destruct (Z.ltb_spec i 32); [| lia]. cbn. apply andb_true_r. }
  split; [reflexivity |]. split; [reflexivity |]. split; [reflexivity |].
  split; [intros c Hc; now apply upd_other |].
  intros s2 Hapart.
  apply (status_flags_after_w1c s s2 (at_offset s STM32_DMA_ISR_MASK));
    [reflexivity | apply at_offset_mask_window | exact Hapart].
Qed.

(** X10: a stream whose control register has none of the bits 1 to 3 set is
    never served: whatever the status register shows, the dispatcher reads
    the two registers and stops, writing nothing and calling nothing, and
    the pending flags stay pending. *)
Theorem dmaServeInterrupt_masked_stream
  (s : stm32_dma_stream_t) (m : machine) :
  Z.land (CCR (channels m (channel s))) 0x0E = 0 ->
  exists m',
    dmaServeInterrupt s m = Done tt m'
    /\ trace m' =
       trace m ++ [Load (DMA_ISR (dma s)) (ISR (units m (dma s)));
                   Load (CH_CCR (channel s)) (CCR (channels m (channel s)))]
    /\ units m' = units m
    /\ channels m' = channels m.
Proof.
  intros Hmask. exists (observed s m).
  split; [| split; [apply trace_observed | split; reflexivity]].
  apply dmaServeInterrupt_skip. unfold enabled_flags, status_flags.
  rewrite <- Z.land_assoc, (Z.land_comm STM32_DMA_ISR_MASK).
  unfold STM32_DMA_ISR_MASK. rewrite Hmask. apply Z.land_0_r.
Qed.

Lemma disabled_control_masks_flags (x : Z) :
  Z.lor (Z.lor STM32_DMA_CR_TCIE STM32_DMA_CR_HTIE) STM32_DMA_CR_TEIE
  = STM32_DMA_ISR_MASK ->
  Z.land (Z.land x disable_mask) STM32_DMA_ISR_MASK = 0.
Proof.
  intros Hconv. rewrite <- Hconv. unfold disable_mask. apply land_clear.
  rewrite (Z.lor_comm _ STM32_DMA_CR_EN). apply land_lor_absorb.
Qed.

(** X11: on a device whose three interrupt-enable bits sit at the positions
    of the three status bits, a stream that has been disabled is not served
    afterwards, whatever flags the hardware raises in the meantime: the
    dispatcher writes nothing, calls nothing and leaves the flags raised. *)
Theorem dmaStreamDisable_then_ServeInterrupt
  (s : stm32_dma_stream_t) (m : machine) (isr : Z) :
  Z.lor (Z.lor STM32_DMA_CR_TCIE STM32_DMA_CR_HTIE) STM32_DMA_CR_TEIE
  = 0x0E ->
  exists m1 m2,
    dmaStreamDisable s m = Done tt m1
    /\ dmaServeInterrupt s (hw_status (dma s) isr m1) = Done tt m2
    /\ trace m2 =
       trace m1 ++ [Load (DMA_ISR (dma s)) isr;
                    Load (CH_CCR (channel s)) (CCR (channels m1 (channel s)))]
    /\ ISR (units m2 (dma s)) = isr
    /\ channels m2 = channels m1.
Proof.
  intros Hconv. eexists _, _.
  split; [apply dmaStreamDisable_run |].
  split.
  { apply dmaServeInterrupt_skip. unfold enabled_flags, status_flags.
    cbn [channels units hw_status]. rewrite !upd_same. cbn [CCR ISR].
    rewrite <- Z.land_assoc, (Z.land_comm STM32_DMA_ISR_MASK).
    rewrite (disabled_control_masks_flags _ Hconv). apply Z.land_0_r. }
  split.
  { rewrite trace_observed. cbn [units channels hw_status trace].
    now rewrite !upd_same. }
  split; [| reflexivity].
  cbn [units observed log hw_status]. now rewrite upd_same.
Qed.

End Sharing.

Lemma dmaServeInterrupt_masked_stream_witness :
  exists m',
    dmaServeInterrupt (sample_stream 0)
      (sample_machine 0x0E 0x40C1 0 sample_redir) = Done tt m'
    /\ trace m' = [] ++ [Load (DMA_ISR 0) 0x0E; Load (CH_CCR 0) 0x40C1]
    /\ units m' = units (sample_machine 0x0E 0x40C1 0 sample_redir)
    /\ channels m' = channels (sample_machine 0x0E 0x40C1 0 sample_redir).
Proof.
  apply (dmaServeInterrupt_masked_stream (sample_stream 0)
           (sample_machine 0x0E 0x40C1 0 sample_redir)).
  reflexivity.
Defined.

Lemma dmaStreamDisable_then_ServeInterrupt_witness :
  exists m1 m2,
    dmaStreamDisable (sample_stream 0)
      (sample_machine 0 0x40CF 0 sample_redir) = Done tt m1
    /\ dmaServeInterrupt (sample_stream 0) (hw_status 0 0x0E m1) = Done tt m2
    /\ trace m2 =
       trace m1 ++ [Load (DMA_ISR 0) 0x0E;
                    Load (CH_CCR 0) (CCR (channels m1 0))]
    /\ ISR (units m2 0) = 0x0E
    /\ channels m2 = channels m1.
Proof.
  apply (dmaStreamDisable_then_ServeInterrupt (hdr := stm32_cmsis)
           (sample_stream 0) (sample_machine 0 0x40CF 0 sample_redir) 0x0E).
  reflexivity.
Defined.

(* ===================================================================== *)
(** ** Further properties: the dispatcher *)
(* ===================================================================== *)

(** Once acknowledged, the stream shows no flag. *)
Lemma status_flags_after_ack (s : stm32_dma_stream_t) (m : machine) :
  stream_ok s -> status_flags s (acknowledged s m) = 0.
Proof.
  intros [Hlo Hhi]. unfold status_flags at 1.
  cbn [units acknowledged observed log poke]. rewrite upd_same. cbn [ISR].
  apply Z.bits_inj'. intros i Hi. bits i Hi. rewrite Z.bits_0.
  destruct (Z.leb_spec 1 i) as [H1 | H1]; cbn [andb];
    [| now rewrite andb_false_r].
  destruct (Z.leb_spec i 3) as [H3 | H3]; cbn [andb];
    [| now rewrite andb_false_r].
  unfold at_offset, status_flags.
  rewrite u32_testbit, Z.shiftl_spec by lia.
  replace (i + shift s - shift s) with i by lia.
  rewrite Z.land_spec, Z.shiftr_spec, mask_testbit by lia.
  destruct (Z.ltb_spec (i + shift s) 32); [| lia].
  destruct (Z.leb_spec 1 i); [| lia].
  destruct (Z.leb_spec i 3); [| lia].
  now destruct (Z.testbit _ (i + shift s)).
Qed.

(** X12: an event is delivered once.  After the dispatcher has served a
    stream, serving it again before the hardware raises anything new only
    reads the two registers: no second write to the clear-flags register
    and no second call. *)
Theorem dmaServeInterrupt_twice
  (s : stm32_dma_stream_t) (m : machine) (e : dma_isr_redir_t) :
  stream_ok s ->
  nth_error (_stm32_dma_isr_redir m) (selfindex s) = Some e ->
  exists m1 m2,
    dmaServeInterrupt s m = Done tt m1
    /\ dmaServeInterrupt s m1 = Done tt m2
    /\ trace m2 =
       trace m1 ++ [Load (DMA_ISR (dma s)) (ISR (units m1 (dma s)));
                    Load (CH_CCR (channel s)) (CCR (channels m1 (channel s)))]
    /\ units m2 = units m1.
Proof.
  intros Hok He.
  destruct (dmaServeInterrupt_cases s m e He)
    as (m1 & evs & Hrun & _ & Hcase).
  exists m1, (observed s m1). split; [exact Hrun |].
  split; [| split; [apply trace_observed | reflexivity]].
  apply dmaServeInterrupt_skip.
  destruct Hcase as [(Hz & -> & _) | [(_ & _ & -> & _) | (_ & _ & -> & _)]].
  - exact Hz.
  - unfold enabled_flags. rewrite (status_flags_after_ack s m Hok).
    apply Z.land_0_l.
  - unfold enabled_flags.
    change (status_flags s (log _ (acknowledged s m)))
      with (status_flags s (acknowledged s m)).
    rewrite (status_flags_after_ack s m Hok). apply Z.land_0_l.
Qed.

Lemma dmaServeInterrupt_twice_witness :
  exists m1 m2,
    dmaServeInterrupt (sample_stream 1)
      (sample_machine 0xA5 0x0A 0 sample_redir) = Done tt m1
    /\ dmaServeInterrupt (sample_stream 1) m1 = Done tt m2
    /\ trace m2 =
       trace m1 ++ [Load (DMA_ISR 0) (ISR (units m1 0));
                    Load (CH_CCR 1) (CCR (channels m1 1))]
    /\ units m2 = units m1.
Proof.
  apply (dmaServeInterrupt_twice (sample_stream 1)
           (sample_machine 0xA5 0x0A 0 sample_redir)
           (mkRedir 0x08002000 0x20000100)).
  - unfold stream_ok. simpl. lia.
  - reflexivity.
Defined.



(** X14: how the callback is called.  In one dispatch the callback is
    called at most once; when it is, the function is the registered one and
    is not null, the parameter is the registered one, the flags are not
    zero, hold no bit outside 0x0E and share a bit with the control
    register, and the write of these flags to the clear-flags register is
    the access just before the call. *)
Theorem dmaServeInterrupt_callback_call
  (s : stm32_dma_stream_t) (m : machine) (e : dma_isr_redir_t) :
  nth_error (_stm32_dma_isr_redir m) (selfindex s) = Some e ->
  exists m' evs,
    dmaServeInterrupt s m = Done tt m'
    /\ trace m' = trace m ++ evs
    /\ (length (callbacks_of evs) <= 1)%nat
    /\ (forall f p fl, In (f, p, fl) (callbacks_of evs) ->
          f = dma_func e /\ f <> 0 /\ p = dma_param e
          /\ fl <> 0 /\ Z.land fl 0x0E = fl
          /\ Z.land fl (CCR (channels m (channel s))) <> 0
          /\ exists pre,
               evs = pre ++ [Store (DMA_IFCR (dma s))
                                   (u32 (Z.shiftl fl (shift s)));
                             Callback f p fl]).
Proof.
  intros He.
  destruct (dmaServeInterrupt_cases s m e He)
    as (m' & evs & Hrun & Htr & Hcase).
  exists m', evs. split; [exact Hrun |]. split; [exact Htr |].
  destruct Hcase
    as [(_ & _ & ->) | [(_ & _ & _ & ->) | (Hnz & Hf & _ & ->)]].
  - split; [cbn; lia | intros f p fl []].
  - split; [cbn; lia | intros f p fl []].
  - split; [cbn; lia |].
    intros f p fl [Hin | []]. injection Hin as <- <- <-.
    split; [reflexivity |]. split; [exact Hf |]. split; [reflexivity |].
    split.
    { intros Hzero. apply Hnz. unfold enabled_flags. rewrite Hzero.
      apply Z.land_0_l. }
    split; [apply status_flags_in_mask |].
    split; [exact Hnz |].
    exists [Load (DMA_ISR (dma s)) (ISR (units m (dma s)));
            Load (CH_CCR (channel s)) (CCR (channels m (channel s)))].
    reflexivity.
Qed.

Lemma dmaServeInterrupt_callback_call_witness :
  exists m' evs,
    dmaServeInterrupt (sample_stream 1)
      (sample_machine 0xC5 0x4A 0 sample_redir) = Done tt m'
    /\ trace m' = [] ++ evs
    /\ (length (callbacks_of evs) <= 1)%nat
    /\ (forall f p fl, In (f, p, fl) (callbacks_of evs) ->
          f = 0x08002000 /\ f <> 0 /\ p = 0x20000100
          /\ fl <> 0 /\ Z.land fl 0x0E = fl
          /\ Z.land fl 0x4A <> 0
          /\ exists pre,
               evs = pre ++ [Store (DMA_IFCR 0) (u32 (Z.shiftl fl 4));
                             Callback f p fl]).
Proof.
  apply (dmaServeInterrupt_callback_call (sample_stream 1)
           (sample_machine 0xC5 0x4A 0 sample_redir)
           (mkRedir 0x08002000 0x20000100)).
  reflexivity.
Defined.



(* ===================================================================== *)
(** ** Further properties: the polled wait *)
(* ===================================================================== *)

Section Waiting.

Context {hdr : device_header}.
Variable hw : machine -> machine.
Variable s : stm32_dma_stream_t.

(** A count that the hardware keeps positive is positive at every poll. *)
Lemma count_stays_positive (m : machine) :
  (forall m0, CNDTR (channels m0 (channel s)) > 0 ->
              CNDTR (channels (hw m0) (channel s)) > 0) ->
  CNDTR (channels m (channel s)) > 0 ->
  forall i,
    CNDTR (channels (Nat.iter i (poll_miss hw s) m) (channel s)) > 0.
Proof.
  intros Hhw Hm i. induction i as [| i IH]; [exact Hm |].
  change (Nat.iter (S i) (poll_miss hw s) m)
    with (poll_miss hw s (Nat.iter i (poll_miss hw s) m)).
  unfold poll_miss at 1. apply Hhw. exact IH.
Qed.

(** X16: [dmaWaitCompletion] is an unbounded wait.  When the count register
    is positive and the hardware never brings it down to zero, the macro
    does not return, however many polls it is given, and it never gets to
    disabling the stream. *)
Theorem dmaWaitCompletion_never_returns (m : machine) :
  (forall m0, CNDTR (channels m0 (channel s)) > 0 ->
              CNDTR (channels (hw m0) (channel s)) > 0) ->
  CNDTR (channels m (channel s)) > 0 ->
  forall fuel, dmaWaitCompletion hw fuel s m = Stuck OutOfFuel.
Proof.
  intros Hhw Hm fuel. unfold dmaWaitCompletion, bind.
  rewrite dmaWaitCompletion_poll_cut; [reflexivity |].
  intros i _. now apply count_stays_positive.
Qed.

(** The accesses of the polls that saw a positive count. *)
Lemma trace_polls (m : machine) (j : nat) :
  (forall m0, trace (hw m0) = trace m0) ->
  trace (Nat.iter j (poll_miss hw s) m) =
  trace m ++
    map (fun i =>
           Load (CH_CNDTR (channel s))
                (CNDTR (channels (Nat.iter i (poll_miss hw s) m)
                                 (channel s))))
        (seq 0 j).
Proof.
  intros Hhw. induction j as [| j IH]; [cbn; now rewrite app_nil_r |].
  change (Nat.iter (S j) (poll_miss hw s) m)
    with (poll_miss hw s (Nat.iter j (poll_miss hw s) m)).
  unfold poll_miss at 1. rewrite Hhw. cbn [trace log].
  rewrite IH, seq_S, map_app, <- app_assoc. reflexivity.
Qed.

(** X17: the wait only reads until the count is exhausted.  When the first
    poll that does not see a positive count is poll number j, the accesses
    of [dmaWaitCompletion] are j+1 reads of the count register, giving the
    successive counts, followed by the read and the write of the control
    register and the write to the clear-flags register of
    [dmaStreamDisable], and nothing else. *)
Theorem dmaWaitCompletion_accesses (m : machine) (j : nat) :
  (forall m0, trace (hw m0) = trace m0) ->
  (forall i, (i < j)%nat ->
     CNDTR (channels (Nat.iter i (poll_miss hw s) m) (channel s)) > 0) ->
  CNDTR (channels (Nat.iter j (poll_miss hw s) m) (channel s)) <= 0 ->
  exists m',
    dmaWaitCompletion hw (S j) s m = Done tt m'
    /\ trace m' =
       trace m ++
         map (fun i =>
                Load (CH_CNDTR (channel s))
                     (CNDTR (channels (Nat.iter i (poll_miss hw s) m)
                                      (channel s))))
             (seq 0 (S j)) ++
         [Load (CH_CCR (channel s))
               (CCR (channels (Nat.iter j (poll_miss hw s) m) (channel s)));
          Store (CH_CCR (channel s))
                (Z.land (CCR (channels (Nat.iter j (poll_miss hw s) m)
                                       (channel s)))
                        disable_mask);
          Store (DMA_IFCR (dma s)) (u32 (Z.shiftl 0x0E (shift s)))].
Proof.
  intros Hhw Hbefore Hj. eexists. split.
  { unfold dmaWaitCompletion, bind.
    rewrite (dmaWaitCompletion_poll_exit hw s j m (S j) Hbefore Hj)
      by (apply Nat.lt_succ_diag_r).
    apply dmaStreamDisable_run. }
  cbn [trace channels log]. rewrite (trace_polls m j Hhw).
  rewrite seq_S, map_app, <- !app_assoc. reflexivity.
Qed.

End Waiting.

Lemma dmaWaitCompletion_never_returns_witness :
  dmaWaitCompletion (fun m => m) 1000 (sample_stream 0)
    (sample_machine 0 0x40C0 5 sample_redir) = Stuck OutOfFuel.
Proof.
  apply (dmaWaitCompletion_never_returns (hdr := stm32_cmsis) (fun m => m)
           (sample_stream 0) (sample_machine 0 0x40C0 5 sample_redir)).
  - intros m0 H. exact H.
  - reflexivity.
Defined.

Lemma dmaWaitCompletion_accesses_witness :
  exists m',
    dmaWaitCompletion (sample_hw 0) 3 (sample_stream 0)
      (sample_machine 0 0x40C1 2 sample_redir) = Done tt m'
    /\ trace m' =
       [] ++
         map (fun i =>
                Load (CH_CNDTR 0)
                     (CNDTR (channels
                               (Nat.iter i
                                  (poll_miss (sample_hw 0) (sample_stream 0))
                                  (sample_machine 0 0x40C1 2 sample_redir))
                               0)))
             (seq 0 3) ++
         [Load (CH_CCR 0) 0x40C1; Store (CH_CCR 0) 0x40C0;
          Store (DMA_IFCR 0) 0x0E].
Proof.
  apply (dmaWaitCompletion_accesses (hdr := stm32_cmsis) (sample_hw 0)
           (sample_stream 0) (sample_machine 0 0x40C1 2 sample_redir) 2).
  - intros m0. reflexivity.
  - intros i Hi. destruct i as [| [| i]]; [reflexivity | reflexivity | lia].
  - vm_compute. discriminate.
Defined.

Example wait_completion_accesses_2 :
  match dmaWaitCompletion (sample_hw 0) 3 (sample_stream 0)
          (sample_machine 0 0x40C1 2 sample_redir) with
  | Done _ m' => trace m'
  | Stuck _ => []
  end = [Load (CH_CNDTR 0) 2; Load (CH_CNDTR 0) 1; Load (CH_CNDTR 0) 0;
         Load (CH_CCR 0) 0x40C1; Store (CH_CCR 0) 0x40C0;
         Store (DMA_IFCR 0) 0x0E].
Proof. vm_compute. reflexivity. Qed.

Section ZeroCount.

Context {hdr : device_header}.

(** X18: a copy whose count is zero modulo 2^32 programs a zero transaction
    count; the wait that follows returns at its first poll, whatever the
    hardware does and however many polls it is allowed, and leaves the
    stream disabled. *)
Theorem dmaStartMemCopy_zero_count_then_Wait
  (hw : machine -> machine) (s : stm32_dma_stream_t)
  (mode src dst n : Z) (m : machine) (fuel : nat) :
  n mod 2 ^ 32 = 0 ->
  exists m1 m2,
    dmaStartMemCopy s mode src dst n m = Done tt m1
    /\ CNDTR (channels m1 (channel s)) = 0
    /\ dmaWaitCompletion hw (S fuel) s m1 = Done tt m2
    /\ trace m2 =
       trace m1 ++
         [Load (CH_CNDTR (channel s)) 0;
          Load (CH_CCR (channel s)) (CCR (channels m1 (channel s)));
          Store (CH_CCR (channel s))
                (Z.land (CCR (channels m1 (channel s))) disable_mask);
          Store (DMA_IFCR (dma s)) (u32 (Z.shiftl 0x0E (shift s)))]
    /\ CNDTR (channels m2 (channel s)) = 0
    /\ Z.land (CCR (channels m2 (channel s))) STM32_DMA_CR_EN = 0.
Proof.
  intros Hn.
  destruct (dmaStartMemCopy s mode src dst n m) as [[] m1 | f] eqn:Hrun;
    [| discriminate Hrun].
  assert (Hcount : CNDTR (channels m1 (channel s)) = 0).
  { injection Hrun as <-. cbn [channels log poke].
    rewrite !upd_same. cbn [CNDTR]. exact Hn. }
  exists m1. eexists. split; [reflexivity |]. split; [exact Hcount |].
  split.
  { unfold dmaWaitCompletion, bind.
    rewrite (dmaWaitCompletion_poll_exit hw s 0 m1 (S fuel)).
    - cbn [Nat.iter nat_rect]. rewrite Hcount. apply dmaStreamDisable_run.
    - intros i Hi. lia.
    - cbn [Nat.iter nat_rect]. rewrite Hcount. lia.
    - lia. }
  cbn [trace channels log]. rewrite !upd_same. cbn [CCR CNDTR].
  split; [now rewrite <- !app_assoc |].
  split; [exact Hcount |].
  apply disable_clears. auto.
Qed.

End ZeroCount.

Lemma dmaStartMemCopy_zero_count_then_Wait_witness :
  exists m1 m2,
    dmaStartMemCopy (sample_stream 0) 0 0x20000400 0x20000800 (2 ^ 32)
      (sample_machine 0 0 7 sample_redir) = Done tt m1
    /\ CNDTR (channels m1 0) = 0
    /\ dmaWaitCompletion (sample_hw 0) 1 (sample_stream 0) m1 = Done tt m2
    /\ trace m2 =
       trace m1 ++
         [Load (CH_CNDTR 0) 0;
          Load (CH_CCR 0) (CCR (channels m1 0));
          Store (CH_CCR 0) (Z.land (CCR (channels m1 0)) disable_mask);
          Store (DMA_IFCR 0) 0x0E]
    /\ CNDTR (channels m2 0) = 0
    /\ Z.land (CCR (channels m2 0)) STM32_DMA_CR_EN = 0.
Proof.
  apply (dmaStartMemCopy_zero_count_then_Wait (hdr := stm32_cmsis)
           (sample_hw 0) (sample_stream 0) 0 0x20000400 0x20000800 (2 ^ 32)
           (sample_machine 0 0 7 sample_redir) 0).
  reflexivity.
Defined.
